(** * BridgePy: the session manager of [bridgePy/connector.py]

    A shallow embedding of the [Connect] class (topic validation, handler
    registry, pending-subscription table, the public connect / subscribe /
    unsubscribe / disconnect operations and the five transport callbacks),
    followed by the properties established about it. *)

From Stdlib Require Import ZArith Ascii String List Bool Lia.
From stdpp Require Import base option strings list gmap pretty.

Local Set Warnings "-register-all".
Local Open Scope string_scope.
Local Open Scope list_scope.
Local Open Scope Z_scope.

(** ** Python values that flow through the class *)

(** A Python string stands as the bytes of its UTF-8 encoding: an ASCII
    character is one byte below 128; any other code point is a lead byte
    followed by continuation bytes, all above 127. *)

(** What [json.loads] produces (numbers are restricted to integers). *)
Inductive json : Type :=
| JNull
| JBool (b : bool)
| JNum (z : Z)
| JStr (s : string)
| JArr (l : list json)
| JObj (o : list (string * json)).

(** Keys of a raised [KeyError]: a string or an integer. *)
Inductive pykey : Type :=
| KStr (s : string)
| KInt (z : Z).

(** Exceptions, by what the handlers of the class distinguish: the class
    caught by a dedicated clause, and whether the object has an [errno]
    attribute (only [OSError] and its subclasses do). *)
Inductive exn : Type :=
| JSONDecodeError (msg : string)
| KeyError (key : pykey)
| OSError (errno : option Z) (msg : string)
| OtherError (cls : string) (msg : string).

Definition TypeError := OtherError "TypeError".
Definition IndexError := OtherError "IndexError".
Definition AttributeError := OtherError "AttributeError".

(** [repr] of a key and [str(ex)]. *)
Definition key_text (k : pykey) : string :=
  match k with
  | KStr s => s
  | KInt z => pretty z
  end.

Definition key_repr (k : pykey) : string :=
  match k with
  | KStr s => "'" +:+ s +:+ "'"
  | KInt z => pretty z
  end.

Definition str_of_exn (e : exn) : string :=
  match e with
  | JSONDecodeError msg => msg
  | KeyError k => key_repr k
  | OSError _ msg => msg
  | OtherError _ msg => msg
  end.

(** [type(v).__name__] *)
Definition type_name (v : json) : string :=
  match v with
  | JNull => "NoneType"
  | JBool _ => "bool"
  | JNum _ => "int"
  | JStr _ => "str"
  | JArr _ => "list"
  | JObj _ => "dict"
  end.

(** Truth value of a Python object. *)
Definition truthy (v : json) : bool :=
  match v with
  | JNull => false
  | JBool b => b
  | JNum z => negb (z =? 0)
  | JStr s => negb (String.eqb s "")
  | JArr l => match l with [] => false | _ => true end
  | JObj o => match o with [] => false | _ => true end
  end.

(** Lookup in a dict (keys of a dict are unique). *)
Fixpoint dict_get (k : string) (o : list (string * json)) : option json :=
  match o with
  | [] => None
  | (k', v) :: o' => if String.eqb k k' then Some v else dict_get k o'
  end.

(** [v[k]] for a string key [k]. *)
Definition subscript (v : json) (k : string) : exn + json :=
  match v with
  | JObj o =>
      match dict_get k o with
      | Some x => inr x
      | None => inl (KeyError (KStr k))
      end
  | JArr _ => inl (TypeError "list indices must be integers or slices, not str")
  | JStr _ => inl (TypeError "string indices must be integers, not 'str'")
  | _ => inl (TypeError ("'" +:+ type_name v +:+ "' object is not subscriptable"))
  end.

(** A continuation byte of a code point: [10xxxxxx]. *)
Definition is_continuation (c : ascii) : bool :=
  let n := N_of_ascii c in ((128 <=? n) && (n <? 192))%N.

(** The code points of a string, each with its bytes; [cur] is the code
    point being read. *)
Fixpoint code_points_from (cur : string) (s : string) : list string :=
  match s with
  | EmptyString => [cur]
  | String c s' =>
      if is_continuation c
      then code_points_from (cur +:+ String c "") s'
      else cur :: code_points_from (String c "") s'
  end.

Definition code_points (s : string) : list string :=
  match s with
  | EmptyString => []
  | String c s' => code_points_from (String c "") s'
  end.

(** [len(v)]; the length of a string is the number of its code points. *)
Definition py_len (v : json) : exn + Z :=
  match v with
  | JStr s => inr (Z.of_nat (length (code_points s)))
  | JArr l => inr (Z.of_nat (length l))
  | JObj o => inr (Z.of_nat (length o))
  | _ => inl (TypeError ("object of type '" +:+ type_name v +:+ "' has no len()"))
  end.

(** [for x in v]: the items the loop visits; for a string, its code
    points one by one. *)
Definition py_iter (v : json) : exn + list json :=
  match v with
  | JStr s => inr (map JStr (code_points s))
  | JArr l => inr l
  | JObj o => inr (map (fun kv => JStr (fst kv)) o)
  | _ => inl (TypeError ("'" +:+ type_name v +:+ "' object is not iterable"))
  end.

(** ** Topic validation: [re.fullmatch(r'^[0-9a-z/]+$', topic)] *)

(** The character class [[0-9a-z/]]: two code-point ranges and the slash. *)
Definition in_class (c : ascii) : bool :=
  let n := N_of_ascii c in
  ((48 <=? n) && (n <=? 57) || (97 <=? n) && (n <=? 122) || (n =? 47))%N.

(** One or more characters of the class, up to the end of the string. With
    [fullmatch] the two anchors hold at the two ends of the string. *)
Fixpoint class_plus (s : string) : bool :=
  match s with
  | EmptyString => false
  | String c EmptyString => in_class c
  | String c s' => in_class c && class_plus s'
  end.

Definition validate (s : string) : bool := class_plus s.

(** [re.fullmatch(pattern, topic)] on any object: a non-string raises. *)
Definition re_fullmatch (topic : json) : exn + bool :=
  match topic with
  | JStr s => inr (validate s)
  | _ => inl (TypeError ("expected string or bytes-like object, got '"
                         +:+ type_name topic +:+ "'"))
  end.

(** ** Topic splitting: [re.split(r'v1/', topic)] *)

(** Splits at every occurrence of the marker, scanning left to right;
    [cur] is the piece read so far. *)
Fixpoint re_split_from (cur : string) (s : string) : list string :=
  match s with
  | EmptyString => [cur]
  | String a s1 =>
      match s1 with
      | String b (String c rest) =>
          if Ascii.eqb a "v" && Ascii.eqb b "1" && Ascii.eqb c "/"
          then cur :: re_split_from "" rest
          else re_split_from (cur +:+ String a "") s1
      | _ => re_split_from (cur +:+ String a "") s1
      end
  end.

Definition re_split (s : string) : list string := re_split_from "" s.

(** ** Data model: [models.py] and the state of the singleton *)

(** An application callable, known by its identity. Callbacks are
    application code: an invocation is recorded in the trace and is taken
    to return normally. *)
Definition handler : Type := nat.

(** The data categories, one per [on_*_received] property. *)
Inductive Category : Type :=
| Feed | Index | OpenInterest | MarketStatus | Lpp
| High52Week | Low52Week | UpperCircuit | LowerCircuit
| OrderUpdates | TradeUpdates.

(** [__initialize_topics] *)
Definition mw_topic : string := "prod/marketfeed/mw/v1/".
Definition index_topic : string := "prod/marketfeed/index/v1/".
Definition oi_topic : string := "prod/marketfeed/oi/v1/".
Definition market_status : string := "prod/marketfeed/marketstatus/v1/".
Definition lpp : string := "prod/marketfeed/lpp/v1/".
Definition high_52_week : string := "prod/marketfeed/high52week/v1/".
Definition low_52_week : string := "prod/marketfeed/low52week/v1/".
Definition upper_circuit : string := "prod/marketfeed/uppercircuit/v1/".
Definition lower_circuit : string := "prod/marketfeed/lowercircuit/v1/".
Definition order_updates : string := "prod/updates/order/v1/".
Definition trade_updates : string := "prod/updates/trade/v1/".

(** The namespace prefix of a category: the one its [subscribe_*] and
    [unsubscribe_*] operations prepend. *)
Definition prefix_of (c : Category) : string :=
  match c with
  | Feed => mw_topic
  | Index => index_topic
  | OpenInterest => oi_topic
  | MarketStatus => market_status
  | Lpp => lpp
  | High52Week => high_52_week
  | Low52Week => low_52_week
  | UpperCircuit => upper_circuit
  | LowerCircuit => lower_circuit
  | OrderUpdates => order_updates
  | TradeUpdates => trade_updates
  end.

(** [SubscribeResult(resultCode, result, topic)] *)
Record SubscribeResult : Type := mkSubscribeResult {
  resultCode : Z;
  result : string;
  topic : string }.

(** [ConnectionResponse] and [DisconnectResponse]: the same two fields. *)
Record ConnectionResponse : Type := mkConnectionResponse {
  c_status : Z;
  c_message : string }.

(** [SubscribeFeedResponse] and [UnsubscribeFeedResponse]: the same three
    fields; [message] starts as [None]. *)
Record SubscribeFeedResponse : Type := mkSubscribeFeedResponse {
  status : Z;
  message : option string;
  failedTopics : list SubscribeResult }.

(** What the acknowledgment callback receives (the object whose
    [__dict__] is encoded). *)
Inductive ack : Type :=
| CommonResponse (a_status packetType : Z) (packetName a_message : string)
| SubscribeAckResponse (packetType : Z) (packetName : string)
    (subscriptionResult : list SubscribeResult)
| UnsubscribeAckResponse (packetType : Z) (packetName : string)
    (a_status : Z) (a_message : string).

(** A reason code delivered by the transport. *)
Record ReasonCode : Type := mkReasonCode {
  rc_value : Z;
  rc_packetType : Z;
  rc_str : string }.

(** Calls into the MQTT client that act on the connection. *)
Inductive call : Type :=
| MqttUsernamePw (username password : string)
| MqttConnect (host port : json)
| MqttLoopStart
| MqttSubscribe (topics : list (string * Z))
| MqttUnsubscribe (topics : list string)
| MqttDisconnect
| MqttLoopStop.

(** Everything the class does to the outside, in order. *)
Inductive event : Type :=
| Data (h : handler) (payload : list Byte.byte) (suffix : string)
| Ack (h : handler) (a : ack)
| Error (h : handler) (code : Z) (msg : string)
| Call (c : call).

(** The fields of the [Connect] instance. [attrs] holds the attributes
    written by [setattr]; [trace] is the record of outside effects. *)
Record Connect : Type := mkConnect {
  topic_handler : gmap string (option handler);
  attrs : gmap string (option handler);
  subscriptions : gmap Z (list (string * Z));
  count : Z;
  on_acknowledge_response : option handler;
  on_error : option handler;
  trace : list event }.

(** [__init__] *)
Definition initial : Connect :=
  {| topic_handler := ∅; attrs := ∅; subscriptions := ∅; count := 0;
     on_acknowledge_response := None; on_error := None; trace := [] |}.

(** ** Collaborators *)

(** Outcome of the identity service round trip in [__validate_Token]. *)
Inductive validation : Type :=
| Accepted (msg : string)
| Rejected (msg : string)
| ValidationFailed (e : exn).

(** The MQTT client and the other collaborators, as the answers they give.
    A call answers with a value or raises. *)
Record World : Type := mkWorld {
  w_user_name : json -> string;
  w_validate : string -> json -> validation;
  w_is_connected : exn + bool;
  w_connect : json -> json -> exn + Z;
  w_loop_start : exn + unit;
  w_subscribe : list (string * Z) -> exn + (Z * Z);
  w_unsubscribe : list string -> exn + (Z * Z);
  w_disconnect : exn + Z;
  w_loop_stop : exn + unit;
  w_error_string : Z -> string }.

(** A request string, by what [not req] and [json.loads(req)] make of it. *)
Inductive request : Type :=
| ReqEmpty
| ReqInvalid (msg : string)
| ReqJson (j : json).

(** ** State and exceptions *)

(** A computation on the instance: it ends with a value or with a raised
    exception, and leaves a state in both cases. *)
Definition M (A : Type) : Type := Connect -> (exn + A) * Connect.

Definition ret {A : Type} (a : A) : M A := fun st => (inr a, st).

Definition raise {A : Type} (e : exn) : M A := fun st => (inl e, st).

Definition bind {A B : Type} (m : M A) (f : A -> M B) : M B :=
  fun st =>
    match m st with
    | (inl e, st') => (inl e, st')
    | (inr a, st') => f a st'
    end.

Definition lift {A : Type} (r : exn + A) : M A := fun st => (r, st).

(** [try: body except Exception as ex: h ex] *)
Definition try_except {A : Type} (body : M A) (h : exn -> M A) : M A :=
  fun st =>
    match body st with
    | (inl e, st') => h e st'
    | (inr a, st') => (inr a, st')
    end.

Declare Scope py_scope.
Delimit Scope py_scope with py.
Notation "x <- m ;; k" := (bind m (fun x => k))
  (at level 100, m at next level, right associativity) : py_scope.
Notation "m ;;; k" := (bind m (fun _ => k))
  (at level 100, right associativity) : py_scope.
Local Open Scope py_scope.

(** The three fields that change while an operation runs. *)
Definition add_event (ev : event) (st : Connect) : Connect :=
  {| topic_handler := topic_handler st; attrs := attrs st;
     subscriptions := subscriptions st; count := count st;
     on_acknowledge_response := on_acknowledge_response st;
     on_error := on_error st; trace := trace st ++ [ev] |}.

Definition with_subscriptions (m : gmap Z (list (string * Z))) (st : Connect)
    : Connect :=
  {| topic_handler := topic_handler st; attrs := attrs st;
     subscriptions := m; count := count st;
     on_acknowledge_response := on_acknowledge_response st;
     on_error := on_error st; trace := trace st |}.

Definition with_count (n : Z) (st : Connect) : Connect :=
  {| topic_handler := topic_handler st; attrs := attrs st;
     subscriptions := subscriptions st; count := n;
     on_acknowledge_response := on_acknowledge_response st;
     on_error := on_error st; trace := trace st |}.

Definition emit (ev : event) : M unit := fun st => (inr tt, add_event ev st).

Definition set_subscriptions (m : gmap Z (list (string * Z))) : M unit :=
  fun st => (inr tt, with_subscriptions m st).

Definition set_count (n : Z) : M unit := fun st => (inr tt, with_count n st).

Definition get : M Connect := fun st => (inr st, st).

(** [if self.__on_error: self.__on_error(code, msg)] *)
Definition notify_error (code : Z) (msg : string) : M unit :=
  st <- get ;;
  match on_error st with
  | Some h => emit (Error h code msg)
  | None => ret tt
  end.

(** [self.__on_error(code, msg)] with no test: calling [None] raises. *)
Definition call_on_error (code : Z) (msg : string) : M unit :=
  st <- get ;;
  match on_error st with
  | Some h => emit (Error h code msg)
  | None => raise (TypeError "'NoneType' object is not callable")
  end.

(** [if self.__on_acknowledge_response: self.__on_acknowledge_response(...)] *)
Definition notify_ack (a : ack) : M unit :=
  st <- get ;;
  match on_acknowledge_response st with
  | Some h => emit (Ack h a)
  | None => ret tt
  end.

(** ** Handler registration *)

(** The topic each [on_*_received] setter hands to [__set_callback]. *)
Definition setter_topic (c : Category) : string :=
  match c with
  | Feed => mw_topic
  | Index => index_topic
  | OpenInterest => oi_topic
  | MarketStatus => market_status
  | Lpp => lpp
  | High52Week => high_52_week
  | Low52Week => high_52_week
  | UpperCircuit => upper_circuit
  | LowerCircuit => lower_circuit
  | OrderUpdates => order_updates
  | TradeUpdates => trade_updates
  end.

(** The attribute name each setter hands to [__set_callback]. *)
Definition setter_attr (c : Category) : string :=
  match c with
  | Feed => "__on_feed_data_received"
  | Index => "__on_index_data_received"
  | OpenInterest => "__on_open_interest_data_received"
  | MarketStatus => "__on_market_status_data_received"
  | Lpp => "__on_lpp_data_received"
  | High52Week => "__on_high_52_week_data_received"
  | Low52Week => "__on_low_52_week_data_received"
  | UpperCircuit => "__on_upper_circuit_data_received"
  | LowerCircuit => "__on_lower_circuit_data_received"
  | OrderUpdates => "__on_order_updates_received"
  | TradeUpdates => "__on_trade_updates_received"
  end.

(** [__set_callback(func, topic, attr_name)] *)
Definition __set_callback (func : option handler) (tp : string)
    (attr_name : string) (st : Connect) : Connect :=
  {| topic_handler := <[tp := func]> (topic_handler st);
     attrs := <[attr_name := func]> (attrs st);
     subscriptions := subscriptions st; count := count st;
     on_acknowledge_response := on_acknowledge_response st;
     on_error := on_error st; trace := trace st |}.

(** The setter of category [c]: [connection.on_<c>_received = func]. *)
Definition register (c : Category) (func : option handler) (st : Connect)
    : Connect :=
  __set_callback func (setter_topic c) (setter_attr c) st.

(** [connection.on_acknowledge_response = func] *)
Definition set_on_acknowledge_response (func : option handler)
    (st : Connect) : Connect :=
  {| topic_handler := topic_handler st; attrs := attrs st;
     subscriptions := subscriptions st; count := count st;
     on_acknowledge_response := func;
     on_error := on_error st; trace := trace st |}.

(** [connection.on_error = func] *)
Definition set_on_error (func : option handler) (st : Connect) : Connect :=
  {| topic_handler := topic_handler st; attrs := attrs st;
     subscriptions := subscriptions st; count := count st;
     on_acknowledge_response := on_acknowledge_response st;
     on_error := func; trace := trace st |}.

(** ** Connect *)

(** [is_host_connected] *)
Definition is_host_connected (w : World) : M bool :=
  try_except (lift (w_is_connected w))
    (fun ex => notify_error (-1) (str_of_exn ex) ;;; ret false).

(** [__validate_Token]: the status is ["Success"] or not, with a message. *)
Definition __validate_Token (w : World) (clientID : string) (token : json)
    : M (bool * string) :=
  match w_validate w clientID token with
  | Accepted msg => ret (true, msg)
  | Rejected msg => ret (false, msg)
  | ValidationFailed ex =>
      notify_error (-1) (str_of_exn ex) ;;; ret (false, str_of_exn ex)
  end.

Definition dquote : string := String (ascii_of_nat 34) EmptyString.

(** ["OPENID~~" + token + "~"] *)
Definition openid_password (token : json) : exn + string :=
  match token with
  | JStr t => inr ("OPENID~~" +:+ t +:+ "~")
  | _ => inl (TypeError ("can only concatenate str (not " +:+ dquote
                         +:+ type_name token +:+ dquote +:+ ") to str"))
  end.

Definition connect_body (w : World) (conn_req : request)
    : M ConnectionResponse :=
  match conn_req with
  | ReqEmpty => ret (mkConnectionResponse 101 "Request cannot be null")
  | ReqInvalid msg => raise (JSONDecodeError msg)
  | ReqJson req_data =>
      token <- lift (subscript req_data "token") ;;
      let clientID := w_user_name w token in
      valRes <- __validate_Token w clientID token ;;
      if negb (fst valRes)
      then ret (mkConnectionResponse 1 (snd valRes))
      else
        connected <- is_host_connected w ;;
        if (connected : bool)
        then ret (mkConnectionResponse 105 "Client is already connected")
        else
          password <- lift (openid_password token) ;;
          emit (Call (MqttUsernamePw clientID password)) ;;;
          host <- lift (subscript req_data "host") ;;
          port <- lift (subscript req_data "port") ;;
          emit (Call (MqttConnect host port)) ;;;
          res <- lift (w_connect w host port) ;;
          (if res =? 0
           then emit (Call MqttLoopStart) ;;; lift (w_loop_start w)
           else ret tt) ;;;
          ret (mkConnectionResponse res (w_error_string w res))
  end.

(** The three [except] clauses of [connect_host]. The last one reads
    [ex.errno] of whatever was raised. *)
Definition connect_handler (ex : exn) : M ConnectionResponse :=
  match ex with
  | JSONDecodeError msg =>
      notify_error (-1) ("Invalid JSON: " +:+ msg) ;;;
      ret (mkConnectionResponse (-1) ("Invalid JSON: " +:+ msg))
  | KeyError k =>
      let text := "The parameter '" +:+ key_text k +:+ "' should not be empty" in
      notify_error (-1) text ;;;
      ret (mkConnectionResponse (-1) text)
  | OSError errno msg =>
      match errno with
      | Some n =>
          if n =? 11001
          then call_on_error n "Invalid host name" ;;;
               ret (mkConnectionResponse n "Invalid host name")
          else notify_error (-1) msg ;;;
               ret (mkConnectionResponse (-1) msg)
      | None =>
          notify_error (-1) msg ;;;
          ret (mkConnectionResponse (-1) msg)
      end
  | OtherError cls msg =>
      raise (AttributeError ("'" +:+ cls +:+ "' object has no attribute 'errno'"))
  end.

(** [connect_host(conn_req)]: [inl] is an exception leaving the call. *)
Definition connect_host (w : World) (conn_req : request)
    : M ConnectionResponse :=
  try_except (connect_body w conn_req) connect_handler.

(** ** Subscribe and unsubscribe *)

Definition fullmatch_error (t : json) : exn :=
  TypeError ("expected string or bytes-like object, got '"
             +:+ type_name t +:+ "'").

(** The loop of [_build_subscription_topics]: the two lists as they stand
    when the loop ends, and the exception that ended it, if any. *)
Fixpoint subscription_loop (topic_prefix : string) (items : list json)
    (valid_topics : list (string * Z)) (failed : list SubscribeResult)
    : option exn * list (string * Z) * list SubscribeResult :=
  match items with
  | [] => (None, valid_topics, failed)
  | t :: rest =>
      match t with
      | JStr s =>
          if validate s
          then subscription_loop topic_prefix rest
                 (valid_topics ++ [(topic_prefix +:+ s, 0)]) failed
          else subscription_loop topic_prefix rest valid_topics
                 (failed ++ [mkSubscribeResult 104 "Invalid topic" s])
      | _ => (Some (fullmatch_error t), valid_topics, failed)
      end
  end.

(** The loop of [_build_unsubscribe_options]: topics carry no QoS. *)
Fixpoint unsubscribe_loop (topic_prefix : string) (items : list json)
    (valid_topics : list string) (failed : list SubscribeResult)
    : option exn * list string * list SubscribeResult :=
  match items with
  | [] => (None, valid_topics, failed)
  | t :: rest =>
      match t with
      | JStr s =>
          if validate s
          then unsubscribe_loop topic_prefix rest
                 (valid_topics ++ [topic_prefix +:+ s]) failed
          else unsubscribe_loop topic_prefix rest valid_topics
                 (failed ++ [mkSubscribeResult 104 "Invalid topic" s])
      | _ => (Some (fullmatch_error t), valid_topics, failed)
      end
  end.

(** [_build_subscription_topics]: its own [try] reports an exception to
    the error callback and returns with what the loop had collected. *)
Definition _build_subscription_topics (lst : json) (topic_prefix : string)
    : M (list (string * Z) * list SubscribeResult) :=
  match py_iter lst with
  | inl ex => notify_error (-1) (str_of_exn ex) ;;; ret ([], [])
  | inr items =>
      match subscription_loop topic_prefix items [] [] with
      | (Some ex, valid_topics, failed) =>
          notify_error (-1) (str_of_exn ex) ;;; ret (valid_topics, failed)
      | (None, valid_topics, failed) => ret (valid_topics, failed)
      end
  end.

Definition _build_unsubscribe_options (lst : json) (topic_prefix : string)
    : M (list string * list SubscribeResult) :=
  match py_iter lst with
  | inl ex => notify_error (-1) (str_of_exn ex) ;;; ret ([], [])
  | inr items =>
      match unsubscribe_loop topic_prefix items [] [] with
      | (Some ex, valid_topics, failed) =>
          notify_error (-1) (str_of_exn ex) ;;; ret (valid_topics, failed)
      | (None, valid_topics, failed) => ret (valid_topics, failed)
      end
  end.

(** [lst and len(lst) <= 1024] *)
Definition within_bounds (lst : json) : exn + bool :=
  if truthy lst
  then match py_len lst with
       | inl ex => inl ex
       | inr n => inr (n <=? 1024)
       end
  else inr false.

Definition bounds_message : string :=
  "TopicList cannot be null and no. of topics should be less than 1024".

Definition is_nil {A : Type} (l : list A) : bool :=
  match l with [] => true | _ => false end.

(** The part of [__subscribe] after the topics are built:
    [if valid_topics: ... else: ...]. *)
Definition submit_subscribe (w : World) (valid_topics : list (string * Z))
    (failed : list SubscribeResult) : M SubscribeFeedResponse :=
  if is_nil valid_topics
  then ret (mkSubscribeFeedResponse 103 (Some "Subscripton failed") failed)
  else
    emit (Call (MqttSubscribe valid_topics)) ;;;
    res <- lift (w_subscribe w valid_topics) ;;
    let rc := fst res in
    if rc =? 0
    then
      st <- get ;;
      set_subscriptions (<[snd res := valid_topics]> (subscriptions st)) ;;;
      ret (mkSubscribeFeedResponse rc
             (Some (if is_nil failed then w_error_string w rc
                    else "Subscription partially sent"))
             failed)
    else
      ret (mkSubscribeFeedResponse rc (Some (w_error_string w rc)) failed).

Definition subscribe_body (w : World) (req : request) (topic_prefix : string)
    : M SubscribeFeedResponse :=
  match req with
  | ReqEmpty =>
      ret (mkSubscribeFeedResponse 101 (Some "Request cannot be null") [])
  | ReqInvalid msg => raise (JSONDecodeError msg)
  | ReqJson req_data =>
      lst <- lift (subscript req_data "subscriptionList") ;;
      ok <- lift (within_bounds lst) ;;
      if (ok : bool)
      then
        built <- _build_subscription_topics lst topic_prefix ;;
        submit_subscribe w (fst built) (snd built)
      else ret (mkSubscribeFeedResponse 102 (Some bounds_message) [])
  end.

(** The text each [except] clause of subscribe and unsubscribe reports. *)
Definition report_text (ex : exn) : string :=
  match ex with
  | JSONDecodeError msg => "Invalid JSON: " +:+ msg
  | KeyError k => "The parameter '" +:+ key_text k +:+ "' should not be empty"
  | _ => str_of_exn ex
  end.

Definition feed_handler (ex : exn) : M SubscribeFeedResponse :=
  notify_error (-1) (report_text ex) ;;;
  ret (mkSubscribeFeedResponse (-1) (Some (report_text ex)) []).

(** [__subscribe(req, topic_prefix)] *)
Definition __subscribe (w : World) (req : request) (topic_prefix : string)
    : M SubscribeFeedResponse :=
  try_except (subscribe_body w req topic_prefix) feed_handler.

(** The part of [__unsubscribe] after the topics are built. What the
    transport returns next to the status is not read. *)
Definition submit_unsubscribe (w : World) (valid_topics : list string)
    (failed : list SubscribeResult) : M SubscribeFeedResponse :=
  if is_nil valid_topics
  then ret (mkSubscribeFeedResponse 103 (Some "Unsubscription failed") failed)
  else
    emit (Call (MqttUnsubscribe valid_topics)) ;;;
    res <- lift (w_unsubscribe w valid_topics) ;;
    let rc := fst res in
    if rc =? 0
    then
      ret (mkSubscribeFeedResponse rc
             (Some (if is_nil failed then w_error_string w rc
                    else "Unsubscripton partially sent"))
             failed)
    else
      ret (mkSubscribeFeedResponse rc (Some (w_error_string w rc)) failed).

Definition unsubscribe_body (w : World) (req : request) (topic_prefix : string)
    : M SubscribeFeedResponse :=
  match req with
  | ReqEmpty =>
      ret (mkSubscribeFeedResponse 101 (Some "Request cannot be null") [])
  | ReqInvalid msg => raise (JSONDecodeError msg)
  | ReqJson req_data =>
      lst <- lift (subscript req_data "unsubscriptionList") ;;
      ok <- lift (within_bounds lst) ;;
      if (ok : bool)
      then
        built <- _build_unsubscribe_options lst topic_prefix ;;
        submit_unsubscribe w (fst built) (snd built)
      else ret (mkSubscribeFeedResponse 102 (Some bounds_message) [])
  end.

(** [__unsubscribe(req, topic_prefix)] *)
Definition __unsubscribe (w : World) (req : request) (topic_prefix : string)
    : M SubscribeFeedResponse :=
  try_except (unsubscribe_body w req topic_prefix) feed_handler.

(** The public operations of a category: [subscribe_feed],
    [unsubscribe_low_52week], ... *)
Definition subscribe (w : World) (c : Category) (req : request)
    : M SubscribeFeedResponse :=
  __subscribe w req (prefix_of c).

Definition unsubscribe (w : World) (c : Category) (req : request)
    : M SubscribeFeedResponse :=
  __unsubscribe w req (prefix_of c).

(** ** Disconnect *)

Definition disconnect_body (w : World) : M ConnectionResponse :=
  emit (Call MqttDisconnect) ;;;
  res <- lift (w_disconnect w) ;;
  emit (Call MqttLoopStop) ;;;
  lift (w_loop_stop w) ;;;
  ret (mkConnectionResponse res (w_error_string w res)).

(** [disconnect_host()] *)
Definition disconnect_host (w : World) : M ConnectionResponse :=
  try_except (disconnect_body w)
    (fun ex =>
       notify_error (-1) (str_of_exn ex) ;;;
       ret (mkConnectionResponse (-1) (str_of_exn ex))).

(** ** Transport callbacks *)

Definition index_error : exn := IndexError "list index out of range".

(** The [try] block of [__on_message(client, userdata, message)] from the
    point where [message.topic] has given the string [tp]. *)
Definition on_message_body (tp : string) (payload : list Byte.byte) : M unit :=
  let split_topic := re_split tp in
  st <- get ;;
  set_count (count st + 1) ;;;
  match topic_handler st !! (hd "" split_topic +:+ "v1/") with
  | Some (Some h) =>
      match nth_error split_topic 1 with
      | Some suffix => emit (Data h payload suffix)
      | None => raise index_error
      end
  | _ => ret tt
  end.

(** [__on_message] on a message whose topic decodes to [tp]. *)
Definition __on_message (tp : string) (payload : list Byte.byte) : M unit :=
  try_except (on_message_body tp payload)
    (fun ex => notify_error (-1) (str_of_exn ex)).

(** [__on_message] as the transport calls it. [message.topic] decodes the
    topic bytes of the packet: it gives the string [tp], or raises when the
    bytes are not UTF-8. The access is the first thing the [try] block
    does with the topic, before the counter is touched. *)
Definition on_message_of_body (tp : exn + string) (payload : list Byte.byte)
    : M unit :=
  decoded <- lift tp ;;
  on_message_body decoded payload.

Definition __on_message_of (tp : exn + string) (payload : list Byte.byte)
    : M unit :=
  try_except (on_message_of_body tp payload)
    (fun ex => notify_error (-1) (str_of_exn ex)).

(** [__on_connect] and [__on_disconnect] *)
Definition __on_connect (rc : ReasonCode) : M unit :=
  try_except
    (notify_ack (CommonResponse (rc_value rc) (rc_packetType rc) "CONNACK" (rc_str rc)))
    (fun ex => notify_error (-1) (str_of_exn ex)).

Definition __on_disconnect (rc : ReasonCode) : M unit :=
  try_except
    (notify_ack (CommonResponse (rc_value rc) (rc_packetType rc) "DISCONNECT" (rc_str rc)))
    (fun ex => notify_error (-1) (str_of_exn ex)).

(** What the loop of [__on_subscribe] zips the reason codes with: the
    stored [(topic, qos)] tuples, or the two items of the default
    [("Unknown", 0)]. *)
Inductive zipitem : Type :=
| ItTuple (name : string) (qos : Z)
| ItStr (s : string)
| ItInt (z : Z).

Definition pending_items (m : gmap Z (list (string * Z))) (mid : Z)
    : list zipitem :=
  match m !! mid with
  | Some l => map (fun t => ItTuple (fst t) (snd t)) l
  | None => [ItStr "Unknown"; ItInt 0]
  end.

(** [topic[0]] *)
Definition item0 (it : zipitem) : exn + string :=
  match it with
  | ItTuple name _ => inr name
  | ItStr (String c _) => inr (String c "")
  | ItStr EmptyString => inl (IndexError "string index out of range")
  | ItInt _ => inl (TypeError "'int' object is not subscriptable")
  end.

(** [zip(a, b)] stops at the shorter of the two. *)
Fixpoint py_zip {A B : Type} (a : list A) (b : list B) : list (A * B) :=
  match a, b with
  | x :: a', y :: b' => (x, y) :: py_zip a' b'
  | _, _ => []
  end.

(** One turn of the loop: the result for one pair. *)
Definition ack_result (p : ReasonCode * zipitem) : exn + SubscribeResult :=
  match item0 (snd p) with
  | inl ex => inl ex
  | inr name =>
      match nth_error (re_split name) 1 with
      | None => inl index_error
      | Some suffix =>
          inr (mkSubscribeResult (rc_value (fst p))
                 (if rc_value (fst p) =? 0 then "Granted" else "Not Granted")
                 suffix)
      end
  end.

(** The loop: the first failing turn ends it. *)
Fixpoint ack_results (ps : list (ReasonCode * zipitem))
    : exn + list SubscribeResult :=
  match ps with
  | [] => inr []
  | p :: ps' =>
      match ack_result p with
      | inl ex => inl ex
      | inr r =>
          match ack_results ps' with
          | inl ex => inl ex
          | inr rs => inr (r :: rs)
          end
      end
  end.

Definition on_subscribe_body (mid : Z) (reason_code_list : list ReasonCode)
    : M unit :=
  st <- get ;;
  ls <- lift (ack_results (py_zip reason_code_list
                             (pending_items (subscriptions st) mid))) ;;
  (match subscriptions st !! mid with
   | Some _ => set_subscriptions (delete mid (subscriptions st))
   | None => raise (KeyError (KInt mid))
   end) ;;;
  match reason_code_list with
  | [] => raise index_error
  | rc0 :: _ => notify_ack (SubscribeAckResponse (rc_packetType rc0) "SUBACK" ls)
  end.

(** [__on_subscribe(client, userdata, mid, reason_code_list, properties)] *)
Definition __on_subscribe (mid : Z) (reason_code_list : list ReasonCode)
    : M unit :=
  try_except (on_subscribe_body mid reason_code_list)
    (fun ex => notify_error (-1) (str_of_exn ex)).

(** [__on_unsubscribe(client, userdata, mid, reason_code_list, properties)];
    [packetType] is [properties.packetType]. *)
Definition __on_unsubscribe (mid : Z) (reason_code_list : list ReasonCode)
    (packetType : Z) : M unit :=
  try_except
    (notify_ack (UnsubscribeAckResponse packetType "UNSUBACK" 0
                   "Unsubscribed Successfully"))
    (fun ex => notify_error (-1) (str_of_exn ex)).

(** ** Runs of the session *)

(** One action on the instance: a call of the application or a callback
    of the transport, with whatever the collaborators answer. *)
Inductive step : Connect -> Connect -> Prop :=
| step_register c func st :
    step st (register c func st)
| step_set_ack func st :
    step st (set_on_acknowledge_response func st)
| step_set_error func st :
    step st (set_on_error func st)
| step_connect w req st :
    step st (snd (connect_host w req st))
| step_subscribe w c req st :
    step st (snd (subscribe w c req st))
| step_unsubscribe w c req st :
    step st (snd (unsubscribe w c req st))
| step_disconnect w st :
    step st (snd (disconnect_host w st))
| step_on_message tp payload st :
    step st (snd (__on_message tp payload st))
| step_on_message_of tp payload st :
    step st (snd (__on_message_of tp payload st))
| step_on_connect rc st :
    step st (snd (__on_connect rc st))
| step_on_disconnect rc st :
    step st (snd (__on_disconnect rc st))
| step_on_subscribe mid rcl st :
    step st (snd (__on_subscribe mid rcl st))
| step_on_unsubscribe mid rcl pt st :
    step st (snd (__on_unsubscribe mid rcl pt st)).

(** The states a session can be in. *)
Inductive reachable : Connect -> Prop :=
| reach_initial : reachable initial
| reach_step st st' : reachable st -> step st st' -> reachable st'.

(** The calls into the MQTT client recorded in a trace. *)
Fixpoint calls_of (tr : list event) : list call :=
  match tr with
  | [] => []
  | Call c :: tr' => c :: calls_of tr'
  | _ :: tr' => calls_of tr'
  end.

(** ** Vocabulary of the statements *)

(** The grammar in the words of the specification: one or more characters,
    each a digit, a lowercase letter or a slash. *)
Definition grammar_chars : list ascii :=
  list_ascii_of_string "0123456789abcdefghijklmnopqrstuvwxyz/".

Inductive matches_grammar : string -> Prop :=
| grammar_one c : In c grammar_chars -> matches_grammar (String c "")
| grammar_more c s :
    In c grammar_chars -> matches_grammar s -> matches_grammar (String c s).

Definition prefixed (topic_prefix : string) (s : string) : string * Z :=
  (topic_prefix +:+ s, 0).

Definition invalid_topic (s : string) : SubscribeResult :=
  mkSubscribeResult 104 "Invalid topic" s.

Definition invalid (s : string) : bool := negb (validate s).


(** ** Sample collaborators and requests *)

(** A transport that accepts everything and numbers its requests 7. *)
Definition calm_world : World :=
  {| w_user_name := fun _ => "tester";
     w_validate := fun _ _ => Accepted "Token is valid";
     w_is_connected := inr false;
     w_connect := fun _ _ => inr 0;
     w_loop_start := inr tt;
     w_subscribe := fun _ => inr (0, 7);
     w_unsubscribe := fun _ => inr (0, 8);
     w_disconnect := inr 0;
     w_loop_stop := inr tt;
     w_error_string := fun rc => if rc =? 0 then "No error." else "Unknown error." |}.

(** The same, with a client that reports an open connection. *)
Definition connected_world : World :=
  {| w_user_name := w_user_name calm_world;
     w_validate := w_validate calm_world;
     w_is_connected := inr true;
     w_connect := w_connect calm_world;
     w_loop_start := w_loop_start calm_world;
     w_subscribe := w_subscribe calm_world;
     w_unsubscribe := w_unsubscribe calm_world;
     w_disconnect := w_disconnect calm_world;
     w_loop_stop := w_loop_stop calm_world;
     w_error_string := w_error_string calm_world |}.

(** A transport whose subscribe and unsubscribe calls raise. *)
Definition raising_world : World :=
  {| w_user_name := w_user_name calm_world;
     w_validate := w_validate calm_world;
     w_is_connected := inr true;
     w_connect := w_connect calm_world;
     w_loop_start := w_loop_start calm_world;
     w_subscribe :=
       fun _ => inl (OtherError "ValueError" "Invalid subscription filter.");
     w_unsubscribe :=
       fun _ => inl (OtherError "ValueError" "Invalid unsubscribe filter.");
     w_disconnect := w_disconnect calm_world;
     w_loop_stop := w_loop_stop calm_world;
     w_error_string := w_error_string calm_world |}.

(** [{"subscriptionList": [...]}] and [{"unsubscriptionList": [...]}] *)
Definition subscription_request (l : list string) : request :=
  ReqJson (JObj [("subscriptionList", JArr (map JStr l))]).

Definition unsubscription_request (l : list string) : request :=
  ReqJson (JObj [("unsubscriptionList", JArr (map JStr l))]).

(** [{"host": ..., "port": ..., "token": ...}] *)
Definition connection_request (host : string) (port : Z) (token : string)
    : request :=
  ReqJson (JObj [("host", JStr host); ("port", JNum port); ("token", JStr token)]).

(** Whether the marker ["v1/"] occurs in a string. *)
Fixpoint has_marker (s : string) : bool :=
  match s with
  | EmptyString => false
  | String a s1 =>
      match s1 with
      | String b (String c _) =>
          (Ascii.eqb a "v" && Ascii.eqb b "1" && Ascii.eqb c "/") || has_marker s1
      | _ => has_marker s1
      end
  end.

(** The piece of a string before the first occurrence of the marker (the
    whole string when the marker does not occur). *)
Definition first_piece (s : string) : string := hd "" (re_split s).

(** A computation leaves the part [f] of the instance as it found it. *)
Definition keeps {T A : Type} (f : Connect -> T) (m : M A) : Prop :=
  forall st, f (snd (m st)) = f st.

(** The instance after [if self.__on_error: self.__on_error(-1, msg)] and
    after the same for the acknowledgment callback. *)
Definition reported (msg : string) (st : Connect) : Connect :=
  match on_error st with
  | Some h => add_event (Error h (-1) msg) st
  | None => st
  end.

Definition acked (a : ack) (st : Connect) : Connect :=
  match on_acknowledge_response st with
  | Some h => add_event (Ack h a) st
  | None => st
  end.

(** A stored topic is a category prefix followed by a valid suffix, with
    QoS 0. *)
Definition wf_topic (t : string * Z) : Prop :=
  exists c s, t = prefixed (prefix_of c) s /\ validate s = true.

(** Every entry of the pending table holds such topics only. *)
Definition pending_wf (st : Connect) : Prop :=
  forall mid l, subscriptions st !! mid = Some l -> Forall wf_topic l.

(** The result [__on_subscribe] builds for a reason code and the stored
    topic it is paired with. *)
Definition ack_entry (p : ReasonCode * (string * Z)) : SubscribeResult :=
  mkSubscribeResult (rc_value (fst p))
    (if rc_value (fst p) =? 0 then "Granted" else "Not Granted")
    (nth 1 (re_split (fst (snd p))) "").

(** The exceptions for which [connect_host] answers with status -1: those
    with a clause of their own, and those with an [errno] other than
    11001. *)
Definition plain_failure (ex : exn) : Prop :=
  match ex with
  | JSONDecodeError _ => True
  | KeyError _ => True
  | OSError errno _ => errno <> Some 11001
  | OtherError _ _ => False
  end.

(** A transport that differs from [w] only in the ids its unsubscribe call
    returns. *)
Definition with_unsubscribe_ids (g : Z -> Z) (w : World) : World :=
  {| w_user_name := w_user_name w;
     w_validate := w_validate w;
     w_is_connected := w_is_connected w;
     w_connect := w_connect w;
     w_loop_start := w_loop_start w;
     w_subscribe := w_subscribe w;
     w_unsubscribe :=
       fun topics =>
         match w_unsubscribe w topics with
         | inl ex => inl ex
         | inr res => inr (fst res, g (snd res))
         end;
     w_disconnect := w_disconnect w;
     w_loop_stop := w_loop_stop w;
     w_error_string := w_error_string w |}.

(** Two instances that differ in their traces at most. *)
Definition same_but_trace (st st' : Connect) : Prop :=
  topic_handler st' = topic_handler st /\
  attrs st' = attrs st /\
  subscriptions st' = subscriptions st /\
  count st' = count st /\
  on_acknowledge_response st' = on_acknowledge_response st /\
  on_error st' = on_error st.

(** A series of registrations, oldest first, and the handler the last
    registration of a category left for it. *)
Definition apply_registrations (regs : list (Category * option handler))
    (st : Connect) : Connect :=
  fold_left (fun s r => register (fst r) (snd r) s) regs st.

#[global] Instance Category_eq_dec : EqDecision Category.
Proof. solve_decision. Defined.

Definition last_registered (c : Category)
    (regs : list (Category * option handler)) : option (option handler) :=
  fold_left (fun acc r => if decide (fst r = c) then Some (snd r) else acc)
    regs None.

(** ** Reading a callback property *)

(** The attribute [self.__x] names inside the class body: a private name
    is prefixed with the class name. *)
Definition mangled (attr_name : string) : string := "_Connect" +:+ attr_name.

(** The getter [on_<c>_received]: it returns [self.__on_<c>_received], an
    attribute [__initialize_callbacks] creates as [None]; its value is the
    one a later [setattr] under that very name has written, if any. *)
Definition getter (c : Category) (st : Connect) : option handler :=
  match attrs st !! mangled (setter_attr c) with
  | Some func => func
  | None => None
  end.

(** ** Vocabulary of the further statements *)

(** The instance after a series of recorded events. *)
Definition add_events (evs : list event) (st : Connect) : Connect :=
  fold_left (fun s ev => add_event ev s) evs st.

(** The exceptions the last [except] clause of [connect_host] lets out:
    one without an [errno] attribute, and one with [errno] 11001 when no
    error callback is registered. *)
Definition escapes (ex : exn) (st : Connect) : Prop :=
  match ex with
  | OtherError _ _ => True
  | OSError (Some n) _ => n = 11001 /\ on_error st = None
  | _ => False
  end.

(** What [connect_host] treats as "not connected": the client says so, or
    its query raises (then the exception is reported). *)
Definition after_connection_query (w : World) (st : Connect) : Connect :=
  match w_is_connected w with
  | inl ex => reported (str_of_exn ex) st
  | inr _ => st
  end.

(** An identity service that rejects the token, on an open connection. *)
Definition rejecting_world : World :=
  {| w_user_name := w_user_name calm_world;
     w_validate := fun _ _ => Rejected "Token expired";
     w_is_connected := inr true;
     w_connect := w_connect calm_world;
     w_loop_start := w_loop_start calm_world;
     w_subscribe := w_subscribe calm_world;
     w_unsubscribe := w_unsubscribe calm_world;
     w_disconnect := w_disconnect calm_world;
     w_loop_stop := w_loop_stop calm_world;
     w_error_string := w_error_string calm_world |}.

(** A client whose connect call raises a [ValueError] and whose
    disconnect call raises too. *)
Definition refusing_world : World :=
  {| w_user_name := w_user_name calm_world;
     w_validate := w_validate calm_world;
     w_is_connected := inr false;
     w_connect := fun _ _ => inl (OtherError "ValueError" "Invalid host.");
     w_loop_start := w_loop_start calm_world;
     w_subscribe := w_subscribe calm_world;
     w_unsubscribe := w_unsubscribe calm_world;
     w_disconnect := inl (OtherError "RuntimeError" "socket closed");
     w_loop_stop := w_loop_stop calm_world;
     w_error_string := w_error_string calm_world |}.

(** An object other than a string: [re.fullmatch] raises on it. *)
Definition not_a_string (v : json) : Prop :=
  match v with
  | JStr _ => False
  | _ => True
  end.

(** The bytes of a string, each as a string of length one; for an ASCII
    string these are its characters. *)
Definition characters (s : string) : list string :=
  map (fun ch => String ch "") (list_ascii_of_string s).

(** The result a subscribe-ack should carry for a reason code and a
    submitted suffix. *)
Definition suffix_result (p : ReasonCode * string) : SubscribeResult :=
  mkSubscribeResult (rc_value (fst p))
    (if rc_value (fst p) =? 0 then "Granted" else "Not Granted")
    (snd p).

(** ** The identity check and the user name, inside *)

(** What [requests.post] gives [__validate_Token]: the call raises, or it
    returns a status code and a text, which [json.loads] decodes or
    rejects. *)
Inductive http_reply : Type :=
| PostRaised (ex : exn)
| PostReplied (status_code : Z) (body : exn + json).

(** The [try] block of [__validate_Token]: the pair it returns, or the
    exception it raises. With a status code other than 200 it evaluates
    [res.text] on the decoded body, which has no such attribute. *)
Definition validate_reply (r : http_reply) : exn + (json * json) :=
  match r with
  | PostRaised ex => inl ex
  | PostReplied status_code (inl ex) => inl ex
  | PostReplied status_code (inr res) =>
      if status_code =? 200
      then
        match subscript res "result" with
        | inl ex => inl ex
        | inr result =>
            match subscript result "status" with
            | inl ex => inl ex
            | inr sts =>
                match subscript result "message" with
                | inl ex => inl ex
                | inr msg => inr (sts, msg)
                end
            end
        end
      else inl (AttributeError ("'" +:+ type_name res
                                +:+ "' object has no attribute 'text'"))
  end.

(** [str(v)]: the string itself for a string; [other] stands for the
    rendering of the other values. *)
Definition py_str (other : json -> string) (v : json) : string :=
  match v with
  | JStr s => s
  | _ => other v
  end.

(** [v == "Success"] *)
Definition is_success (v : json) : bool :=
  match v with
  | JStr s => String.eqb s "Success"
  | _ => false
  end.

(** The outcome of [__validate_Token] as [connect_host] reads it: the
    first component compared with ["Success"], the second as a string. *)
Definition verdict (other : json -> string) (r : http_reply) : validation :=
  match validate_reply r with
  | inl ex => ValidationFailed ex
  | inr (sts, msg) =>
      if is_success sts then Accepted (py_str other msg)
      else Rejected (py_str other msg)
  end.

(** [token.split('.')]; [cur] is the part read so far. *)
Fixpoint split_dot_from (cur : string) (s : string) : list string :=
  match s with
  | EmptyString => [cur]
  | String ch s' =>
      if Ascii.eqb ch "."
      then cur :: split_dot_from "" s'
      else split_dot_from (cur +:+ String ch "") s'
  end.

Definition split_dot (s : string) : list string := split_dot_from "" s.

(** ['=' * n] *)
Fixpoint equals_signs (n : nat) : string :=
  match n with
  | O => ""
  | S n' => String "=" (equals_signs n')
  end.

(** [payload += '=' * ((4 - len(payload) % 4) % 4)]. The length is taken
    in bytes: the payload of a token is base64 text, which is ASCII, and
    [base64.urlsafe_b64decode] raises on any other string whatever its
    padding. *)
Definition pad_payload (payload : string) : string :=
  payload +:+ equals_signs ((4 - String.length payload mod 4) mod 4).

(** [__get_user_name(token)]; [decode] stands for
    [json.loads(base64.urlsafe_b64decode(.))]. Every exception of the
    body gives ["tester"]. *)
Definition __get_user_name (decode : string -> exn + json) (token : json)
    : json :=
  match token with
  | JStr t =>
      match nth_error (split_dot t) 1 with
      | None => JStr "tester"
      | Some payload =>
          match decode (pad_payload payload) with
          | inl _ => JStr "tester"
          | inr jwt_payload =>
              match subscript jwt_payload "preferred_username" with
              | inl _ => JStr "tester"
              | inr name => name
              end
          end
      end
  | _ => JStr "tester"
  end.

(** A string without a dot. *)
Definition dotless (s : string) : Prop :=
  Forall (fun ch => ch <> "."%char) (list_ascii_of_string s).

(** ** The example program: [examples/main.py] *)

Module Main.

(** The callables the example defines. *)
Definition acknowledgement_handler : handler := 1%nat.
Definition error_handler : handler := 2%nat.
Definition feed_handler : handler := 3%nat.
Definition open_interest_handler : handler := 4%nat.
Definition lpp_handler : handler := 5%nat.
Definition market_status_handler : handler := 6%nat.
Definition upper_circuit_handler : handler := 7%nat.
Definition lower_circuit_handler : handler := 8%nat.
Definition high_52week_handler : handler := 9%nat.
Definition low_52week_handler : handler := 10%nat.
Definition order_update_handler : handler := 11%nat.
Definition trade_update_handler : handler := 12%nat.

(** [connection_obj.<name> = func] for a name that is no property of the
    class: the instance gets an attribute of that name. *)
Definition plain_attribute (name : string) (func : option handler)
    (st : Connect) : Connect :=
  {| topic_handler := topic_handler st;
     attrs := <[name := func]> (attrs st);
     subscriptions := subscriptions st; count := count st;
     on_acknowledge_response := on_acknowledge_response st;
     on_error := on_error st; trace := trace st |}.

(** The twelve assignments at the head of [main()], in order. Three of
    them use names the class has no property for. *)
Definition registrations (st : Connect) : Connect :=
  let st := set_on_acknowledge_response (Some acknowledgement_handler) st in
  let st := set_on_error (Some error_handler) st in
  let st := register Feed (Some feed_handler) st in
  let st := register OpenInterest (Some open_interest_handler) st in
  let st := register Lpp (Some lpp_handler) st in
  let st := register MarketStatus (Some market_status_handler) st in
  let st := register UpperCircuit (Some upper_circuit_handler) st in
  let st := register LowerCircuit (Some lower_circuit_handler) st in
  let st := plain_attribute "on_high_52week_data_received"
              (Some high_52week_handler) st in
  let st := plain_attribute "on_low_52week_data_received"
              (Some low_52week_handler) st in
  let st := register OrderUpdates (Some order_update_handler) st in
  plain_attribute "on_trade_update_data_received"
    (Some trade_update_handler) st.

(** The handler of the example that receives the messages of a
    category, if any does. *)
Definition receiver (c : Category) : option handler :=
  match c with
  | Feed => Some feed_handler
  | OpenInterest => Some open_interest_handler
  | Lpp => Some lpp_handler
  | MarketStatus => Some market_status_handler
  | UpperCircuit => Some upper_circuit_handler
  | LowerCircuit => Some lower_circuit_handler
  | OrderUpdates => Some order_update_handler
  | Index | High52Week | Low52Week | TradeUpdates => None
  end.

End Main.

(** A string of ASCII characters: its characters are its bytes. *)
Definition ascii_only (s : string) : Prop :=
  Forall (fun ch => (N_of_ascii ch < 128)%N) (list_ascii_of_string s).
(** * Properties *)

(** ** Splitting and validation on samples *)

Example re_split_feed :
  re_split "prod/marketfeed/mw/v1/nseeq/2285" = ["prod/marketfeed/mw/"; "nseeq/2285"].
Proof. reflexivity. Qed.

Example re_split_twice :
  re_split "prod/marketfeed/mw/v1/nsev1/22" = ["prod/marketfeed/mw/"; "nse"; "22"].
Proof. reflexivity. Qed.

Example re_split_none : re_split "Unknown" = ["Unknown"].
Proof. reflexivity. Qed.

Example validate_samples :
  validate "nseeq/2285" = true /\ validate "" = false /\
  validate "NSE" = false /\ validate "a b" = false /\ validate "a+" = false.
Proof. repeat split; reflexivity. Qed.


(** ** The grammar of suffixes *)

Lemma in_class_chars (c : ascii) : in_class c = true <-> In c grammar_chars.
Proof.
  destruct c as [[] [] [] [] [] [] [] []]; vm_compute;
    (split;
     [ intros H; first [ discriminate H
                       | repeat (first [ left; reflexivity | right ]) ]
     | intros H; first [ reflexivity
                       | exfalso;
                         repeat (destruct H as [H | H]; [ discriminate H | ]);
                         exact H ] ]).
Qed.

Lemma validate_grammar (s : string) : validate s = true <-> matches_grammar s.
Proof.
  unfold validate. induction s as [| a s IH].
  - split; [ discriminate | inversion 1 ].
  - destruct s as [| b s'].
    + cbn [class_plus]. rewrite in_class_chars. split.
      * apply grammar_one.
      * intros H. inversion H as [c Hc | c t Hc Ht]; subst; [ exact Hc | inversion Ht ].
    + change (class_plus (String a (String b s')))
        with (in_class a && class_plus (String b s')).
      rewrite andb_true_iff, in_class_chars, IH. split.
      * intros [Ha Hs]. apply grammar_more; assumption.
      * intros H. inversion H as [c Hc | c t Hc Ht]; subst. split; assumption.
Qed.

(** ** The monad: how a computation runs *)

(** Runs a computation down to its primitive state changes. *)
Ltac run :=
  cbv [try_except bind lift emit ret raise get notify_error call_on_error
       notify_ack set_subscriptions set_count feed_handler].

Lemma calls_of_app (t1 t2 : list event) :
  calls_of (t1 ++ t2) = calls_of t1 ++ calls_of t2.
Proof.
  induction t1 as [| ev t1 IH]; [ reflexivity | ].
  destruct ev; cbn [calls_of app]; rewrite IH; reflexivity.
Qed.

Lemma append_inj (p a b : string) : p +:+ a = p +:+ b -> a = b.
Proof.
  induction p as [| c p IH]; cbn [String.append]; intros H.
  - exact H.
  - injection H as H. apply IH, H.
Qed.

(** ** The topic builders on a batch of strings *)

Lemma subscription_loop_strings (p : string) (l : list string) :
  forall valid_topics failed,
    subscription_loop p (map JStr l) valid_topics failed =
    (None,
     valid_topics ++ map (prefixed p) (List.filter validate l),
     failed ++ map invalid_topic (List.filter invalid l)).
Proof.
  induction l as [| s l IH]; intros v f; cbn [map subscription_loop List.filter].
  - rewrite !app_nil_r. reflexivity.
  - unfold invalid at 1. destruct (validate s); cbn [negb map]; rewrite IH.
    + rewrite <- app_assoc. reflexivity.
    + rewrite <- app_assoc. reflexivity.
Qed.

Lemma unsubscribe_loop_strings (p : string) (l : list string) :
  forall valid_topics failed,
    unsubscribe_loop p (map JStr l) valid_topics failed =
    (None,
     valid_topics ++ map (String.append p) (List.filter validate l),
     failed ++ map invalid_topic (List.filter invalid l)).
Proof.
  induction l as [| s l IH]; intros v f; cbn [map unsubscribe_loop List.filter].
  - rewrite !app_nil_r. reflexivity.
  - unfold invalid at 1. destruct (validate s); cbn [negb map]; rewrite IH.
    + rewrite <- app_assoc. reflexivity.
    + rewrite <- app_assoc. reflexivity.
Qed.

Lemma within_bounds_strings (l : list json) :
  (1 <= length l <= 1024)%nat -> within_bounds (JArr l) = inr true.
Proof.
  intros [Hlo Hhi]. unfold within_bounds, truthy, py_len.
  destruct l as [| x l]; [ cbn in Hlo; lia | ].
  f_equal. apply Z.leb_le. lia.
Qed.

Lemma within_bounds_large (l : list json) :
  (1024 < length l)%nat -> within_bounds (JArr l) = inr false.
Proof.
  intros H. unfold within_bounds, truthy, py_len.
  destruct l as [| x l]; [ cbn in H; lia | ].
  f_equal. apply Z.leb_gt. lia.
Qed.

(** A batch of strings within bounds reaches the submission with the valid
    suffixes prefixed and the others listed as failed. *)
Lemma subscribe_body_strings w p o (l : list string) st :
  dict_get "subscriptionList" o = Some (JArr (map JStr l)) ->
  (1 <= length l <= 1024)%nat ->
  subscribe_body w (ReqJson (JObj o)) p st =
  submit_subscribe w (map (prefixed p) (List.filter validate l))
    (map invalid_topic (List.filter invalid l)) st.
Proof.
  intros Hget Hlen.
  unfold subscribe_body, bind, lift, subscript. rewrite Hget.
  rewrite within_bounds_strings by (rewrite length_map; exact Hlen).
  unfold _build_subscription_topics, py_iter.
  rewrite subscription_loop_strings. cbn [app ret fst snd]. reflexivity.
Qed.

Lemma unsubscribe_body_strings w p o (l : list string) st :
  dict_get "unsubscriptionList" o = Some (JArr (map JStr l)) ->
  (1 <= length l <= 1024)%nat ->
  unsubscribe_body w (ReqJson (JObj o)) p st =
  submit_unsubscribe w (map (String.append p) (List.filter validate l))
    (map invalid_topic (List.filter invalid l)) st.
Proof.
  intros Hget Hlen.
  unfold unsubscribe_body, bind, lift, subscript. rewrite Hget.
  rewrite within_bounds_strings by (rewrite length_map; exact Hlen).
  unfold _build_unsubscribe_options, py_iter.
  rewrite unsubscribe_loop_strings. cbn [app ret fst snd]. reflexivity.
Qed.

(** ** Requests that never reach the transport *)

(** C7. For subscribe and unsubscribe alike: a null or empty request gets
    status 101, a request whose topic list has more than 1024 entries gets
    status 102, and in both cases the instance is left as it was, its
    trace included, so no call into the transport is issued. *)
Theorem null_and_oversized_requests
    (w : World) (p : string) (st : Connect)
    (o_sub o_unsub : list (string * json)) (l_sub l_unsub : list json) :
  dict_get "subscriptionList" o_sub = Some (JArr l_sub) ->
  (1024 < length l_sub)%nat ->
  dict_get "unsubscriptionList" o_unsub = Some (JArr l_unsub) ->
  (1024 < length l_unsub)%nat ->
  __subscribe w ReqEmpty p st =
    (inr (mkSubscribeFeedResponse 101 (Some "Request cannot be null") []), st) /\
  __unsubscribe w ReqEmpty p st =
    (inr (mkSubscribeFeedResponse 101 (Some "Request cannot be null") []), st) /\
  __subscribe w (ReqJson (JObj o_sub)) p st =
    (inr (mkSubscribeFeedResponse 102 (Some bounds_message) []), st) /\
  __unsubscribe w (ReqJson (JObj o_unsub)) p st =
    (inr (mkSubscribeFeedResponse 102 (Some bounds_message) []), st).
Proof.
  intros Hs Hls Hu Hlu. split; [ | split; [ | split ] ].
  - reflexivity.
  - reflexivity.
  - unfold __subscribe, try_except, subscribe_body, bind, lift, subscript.
    rewrite Hs, (within_bounds_large _ Hls). reflexivity.
  - unfold __unsubscribe, try_except, unsubscribe_body, bind, lift, subscript.
    rewrite Hu, (within_bounds_large _ Hlu). reflexivity.
Qed.

Lemma null_and_oversized_requests_witness :
  let big := repeat (JStr "nseeq/2285") 1025 in
  __subscribe calm_world (ReqJson (JObj [("subscriptionList", JArr big)]))
    mw_topic initial =
    (inr (mkSubscribeFeedResponse 102 (Some bounds_message) []), initial) /\
  __unsubscribe calm_world (ReqJson (JObj [("unsubscriptionList", JArr big)]))
    mw_topic initial =
    (inr (mkSubscribeFeedResponse 102 (Some bounds_message) []), initial).
Proof.
  intros big.
  assert (Hbig : (1024 < length big)%nat)
    by (unfold big; rewrite repeat_length; lia).
  pose proof (null_and_oversized_requests calm_world mw_topic initial
                [("subscriptionList", JArr big)]
                [("unsubscriptionList", JArr big)] big big
                eq_refl Hbig eq_refl Hbig) as H.
  split; [ exact (proj1 (proj2 (proj2 H))) | exact (proj2 (proj2 (proj2 H))) ].
Defined.

Lemma filter_validate_nil (l : list string) :
  List.filter validate l = [] -> List.filter invalid l = l.
Proof.
  induction l as [| s l IH]; cbn [List.filter]; [ reflexivity | ].
  unfold invalid at 1. destruct (validate s); cbn [negb]; [ discriminate | ].
  intros H. rewrite (IH H). reflexivity.
Qed.

(** C9. When no suffix of a subscribe batch passes validation, the request
    fails as a whole: status 103, the instance unchanged (so the transport
    subscribe call is not attempted), and every suffix of the batch listed
    in [failedTopics] with result code 104. *)
Theorem empty_valid_set_fails
    (w : World) (p : string) (st : Connect)
    (o : list (string * json)) (l : list string) :
  dict_get "subscriptionList" o = Some (JArr (map JStr l)) ->
  (1 <= length l <= 1024)%nat ->
  List.filter validate l = [] ->
  __subscribe w (ReqJson (JObj o)) p st =
    (inr (mkSubscribeFeedResponse 103 (Some "Subscripton failed")
            (map (mkSubscribeResult 104 "Invalid topic") l)), st).
Proof.
  intros Hget Hlen Hnone.
  unfold __subscribe, try_except.
  rewrite (subscribe_body_strings w p o l st Hget Hlen).
  rewrite Hnone, (filter_validate_nil l Hnone). reflexivity.
Qed.

Lemma empty_valid_set_fails_witness :
  __subscribe calm_world (subscription_request ["NSEEQ/2285"; ""; "a b"])
    mw_topic initial =
    (inr (mkSubscribeFeedResponse 103 (Some "Subscripton failed")
            [mkSubscribeResult 104 "Invalid topic" "NSEEQ/2285";
             mkSubscribeResult 104 "Invalid topic" "";
             mkSubscribeResult 104 "Invalid topic" "a b"]), initial).
Proof.
  apply (empty_valid_set_fails calm_world mw_topic initial
           [("subscriptionList", JArr (map JStr ["NSEEQ/2285"; ""; "a b"]))]
           ["NSEEQ/2285"; ""; "a b"]).
  - reflexivity.
  - cbn [length]. lia.
  - reflexivity.
Defined.

(** ** Validation of a batch *)

Lemma in_prefixed_filter (p : string) (l : list string) (s : string) :
  In (prefixed p s) (map (prefixed p) (List.filter validate l)) <->
  In s l /\ validate s = true.
Proof.
  rewrite <- filter_In, in_map_iff. split.
  - intros [s' [Heq Hin]]. unfold prefixed in Heq.
    injection Heq as Heq. apply append_inj in Heq. subst s'. exact Hin.
  - intros Hin. exists s. split; [ reflexivity | exact Hin ].
Qed.

(** C4, counterexample. A batch of one invalid and one valid suffix, on a
    transport whose subscribe call raises: the response is the error
    result, and its [failedTopics] is empty although ["NSE"] does not match
    the grammar. *)
Lemma failed_topics_dropped_when_transport_raises :
  validate "NSE" = false /\
  fst (__subscribe raising_world (subscription_request ["NSE"; "nseeq/2285"])
         mw_topic initial) =
  inr (mkSubscribeFeedResponse (-1) (Some "Invalid subscription filter.") []).
Proof. split; reflexivity. Qed.

(** C4, amended. For a subscribe batch of 1 to 1024 strings: a suffix of
    the batch is in the transport subscribe call, prefixed, exactly when it
    matches the grammar; the call is issued exactly when some suffix is
    valid and carries the valid suffixes in submission order; when the
    call raises, the response is the status -1 result with no failed
    topics; otherwise [failedTopics] lists the suffixes that do not match,
    unchanged and unprefixed, with result code 104, in submission order. *)
Theorem subscribe_partitions_batch
    (w : World) (p : string) (st : Connect)
    (o : list (string * json)) (l : list string) :
  dict_get "subscriptionList" o = Some (JArr (map JStr l)) ->
  (1 <= length l <= 1024)%nat ->
  let topics := map (prefixed p) (List.filter validate l) in
  let out := __subscribe w (ReqJson (JObj o)) p st in
  (forall s, In s l -> (In (prefixed p s) topics <-> matches_grammar s)) /\
  calls_of (trace (snd out)) =
    calls_of (trace st) ++ (if is_nil topics then [] else [MqttSubscribe topics]) /\
  (forall ex, topics <> [] -> w_subscribe w topics = inl ex ->
     fst out = inr (mkSubscribeFeedResponse (-1) (Some (report_text ex)) [])) /\
  (topics = [] \/ (exists res, w_subscribe w topics = inr res) ->
     exists r, fst out = inr r /\
               failedTopics r = map invalid_topic (List.filter invalid l)).
Proof.
  intros Hget Hlen topics out.
  assert (Hout : out = try_except
                   (submit_subscribe w topics
                      (map invalid_topic (List.filter invalid l))) feed_handler st).
  { unfold out, __subscribe, try_except.
    rewrite (subscribe_body_strings w p o l st Hget Hlen). reflexivity. }
  clearbody out. subst out.
  split; [ | split; [ | split ] ].
  - intros s Hin. unfold topics. rewrite in_prefixed_filter, validate_grammar. tauto.
  - unfold submit_subscribe. run.
    destruct topics as [| t ts]; cbn [is_nil].
    + cbn [snd trace]. rewrite app_nil_r. reflexivity.
    + destruct (w_subscribe w (t :: ts)) as [ex | [rc mid]]; cbn [fst snd].
      * cbn [add_event on_error]. destruct (on_error st);
          cbn [snd add_event trace];
          rewrite ?calls_of_app; cbn [calls_of]; rewrite ?app_nil_r; reflexivity.
      * destruct (rc =? 0); cbn [snd add_event with_subscriptions trace];
          rewrite calls_of_app; reflexivity.
  - intros ex Hne Hex. unfold submit_subscribe. run.
    destruct topics as [| t ts]; [ congruence | ]. cbn [is_nil].
    rewrite Hex. cbn [add_event on_error]. destruct (on_error st); reflexivity.
  - intros Hok. unfold submit_subscribe. run.
    destruct topics as [| t ts]; cbn [is_nil].
    + eexists. split; reflexivity.
    + destruct Hok as [Hnil | [res Hres]]; [ discriminate | ].
      rewrite Hres. destruct res as [rc mid]. cbn [fst snd].
      destruct (rc =? 0); eexists; split; reflexivity.
Qed.

Lemma subscribe_partitions_batch_witness :
  let out := __subscribe calm_world
               (subscription_request ["nseeq/2285"; "NSE"; "bsefo/1113375"])
               mw_topic initial in
  calls_of (trace (snd out)) =
    [MqttSubscribe [("prod/marketfeed/mw/v1/nseeq/2285", 0);
                    ("prod/marketfeed/mw/v1/bsefo/1113375", 0)]] /\
  exists r, fst out = inr r /\
            failedTopics r = [mkSubscribeResult 104 "Invalid topic" "NSE"].
Proof.
  assert (Hlen : (1 <= length ["nseeq/2285"; "NSE"; "bsefo/1113375"] <= 1024)%nat)
    by (cbn [length]; lia).
  pose proof (subscribe_partitions_batch calm_world mw_topic initial
    [("subscriptionList", JArr (map JStr ["nseeq/2285"; "NSE"; "bsefo/1113375"]))]
    ["nseeq/2285"; "NSE"; "bsefo/1113375"] eq_refl Hlen) as H.
  cbv zeta in H. destruct H as [_ [Hcalls [_ Hfailed]]].
  split.
  - exact Hcalls.
  - apply Hfailed. right. eexists. reflexivity.
Defined.

(** ** Splitting a topic *)

Lemma append_assoc (a b c : string) : (a +:+ b) +:+ c = a +:+ (b +:+ c).
Proof.
  induction a as [| x a IH]; [ reflexivity | ].
  change (String x ((a +:+ b) +:+ c) = String x (a +:+ (b +:+ c))).
  f_equal. exact IH.
Qed.

Lemma append_empty_r (a : string) : a +:+ "" = a.
Proof.
  induction a as [| x a IH]; [ reflexivity | ].
  change (String x (a +:+ "") = String x a). f_equal. exact IH.
Qed.

Lemma re_split_from_nonempty (s cur : string) :
  exists x xs, re_split_from cur s = x :: xs.
Proof.
  revert cur. induction s as [| a s1 IH]; intros cur.
  - exists cur, []. reflexivity.
  - cbn [re_split_from]. destruct s1 as [| b [| c rest]]; try apply IH.
    destruct (Ascii.eqb a "v" && Ascii.eqb b "1" && Ascii.eqb c "/").
    + eexists _, _. reflexivity.
    + apply IH.
Qed.

Lemma re_split_no_marker (s cur : string) :
  has_marker s = false -> re_split_from cur s = [cur +:+ s].
Proof.
  revert cur. induction s as [| a s1 IH]; intros cur Hm.
  - cbn [re_split_from]. rewrite append_empty_r. reflexivity.
  - cbn [re_split_from has_marker] in *.
    assert (Hshift : (cur +:+ String a "") +:+ s1 = cur +:+ String a s1)
      by (rewrite append_assoc; reflexivity).
    destruct s1 as [| b [| c rest]].
    + rewrite IH by exact Hm. rewrite Hshift. reflexivity.
    + rewrite IH by exact Hm. rewrite Hshift. reflexivity.
    + apply orb_false_iff in Hm. destruct Hm as [Hhere Hrest].
      rewrite Hhere. rewrite IH by exact Hrest. rewrite Hshift. reflexivity.
Qed.

Lemma first_piece_no_marker (s : string) :
  has_marker s = false -> first_piece s = s.
Proof.
  intros H. unfold first_piece, re_split. rewrite re_split_no_marker by exact H.
  reflexivity.
Qed.

(** A topic of a category splits into the prefix without its marker and
    the pieces of the suffix. *)
Lemma re_split_prefix (c : Category) (s : string) :
  exists stem, prefix_of c = stem +:+ "v1/" /\
               re_split (prefix_of c +:+ s) = stem :: re_split s.
Proof.
  exists (hd "" (re_split (prefix_of c))).
  destruct c; split; reflexivity.
Qed.

Lemma second_piece_of_topic (c : Category) (s : string) :
  hd "" (re_split (prefix_of c +:+ s)) +:+ "v1/" = prefix_of c /\
  nth_error (re_split (prefix_of c +:+ s)) 1 = Some (first_piece s).
Proof.
  destruct (re_split_prefix c s) as [stem [Hp Hs]]. rewrite Hs, Hp.
  split; [ reflexivity | ].
  unfold first_piece, re_split.
  destruct (re_split_from_nonempty s "") as [x [xs Hx]]. rewrite Hx. reflexivity.
Qed.

(** ** Dispatch of inbound messages *)

(** What [__on_message] does with a message on a topic of category [c]:
    the counter goes up, and the handler stored under the prefix of [c],
    if any, gets the payload and the first piece of the suffix. *)
Lemma on_message_dispatch (c : Category) (s : string)
    (payload : list Byte.byte) (st : Connect) :
  __on_message (prefix_of c +:+ s) payload st =
    (inr tt,
     match topic_handler st !! prefix_of c with
     | Some (Some h) =>
         add_event (Data h payload (first_piece s)) (with_count (count st + 1) st)
     | _ => with_count (count st + 1) st
     end).
Proof.
  destruct (second_piece_of_topic c s) as [Hkey Hsuffix].
  unfold __on_message, on_message_body. run.
  rewrite Hkey, Hsuffix.
  destruct (topic_handler st !! prefix_of c) as [[h |] |]; reflexivity.
Qed.

Lemma registry_after_register (c' c : Category) (func : option handler)
    (st : Connect) :
  topic_handler (register c' func st) !! prefix_of c =
    if decide (setter_topic c' = prefix_of c) then Some func
    else topic_handler st !! prefix_of c.
Proof. unfold register, __set_callback. cbn [topic_handler]. apply lookup_insert. Qed.

Lemma setter_topic_prefix (c : Category) :
  c <> Low52Week -> setter_topic c = prefix_of c.
Proof. destruct c; intros H; try reflexivity. contradiction H; reflexivity. Qed.

Lemma setter_topic_other (c' c : Category) :
  c' <> c -> c' <> Low52Week -> setter_topic c' <> prefix_of c.
Proof. destruct c', c; intros H1 H2; solve [ discriminate | contradiction ]. Qed.

(** Away from the 52-week-low setter, registration and dispatch agree: a
    message on a topic of [c] goes to the handler last registered for [c],
    and registrations of other categories leave that handler in place. *)
Lemma registered_handler_receives (c : Category) (func : option handler)
    (s : string) (payload : list Byte.byte) (st : Connect) :
  c <> Low52Week ->
  trace (snd (__on_message (prefix_of c +:+ s) payload (register c func st))) =
    trace st ++ match func with
                | Some h => [Data h payload (first_piece s)]
                | None => []
                end.
Proof.
  intros Hc. rewrite on_message_dispatch, registry_after_register.
  rewrite decide_True by (apply setter_topic_prefix, Hc).
  destruct func; cbn [snd trace add_event with_count register __set_callback];
    rewrite ?app_nil_r; reflexivity.
Qed.

Lemma other_registration_keeps_handler (c' c : Category)
    (func : option handler) (st : Connect) :
  c' <> c -> c' <> Low52Week ->
  topic_handler (register c' func st) !! prefix_of c =
    topic_handler st !! prefix_of c.
Proof.
  intros H1 H2. rewrite registry_after_register.
  apply decide_False, setter_topic_other; assumption.
Qed.

(** As long as the 52-week-low setter is not used, the registry holds for
    every category the handler of its latest registration. *)
Lemma registry_tracks_registrations (regs : list (Category * option handler))
    (c : Category) :
  Forall (fun r => fst r <> Low52Week) regs ->
  topic_handler (apply_registrations regs initial) !! prefix_of c =
    last_registered c regs.
Proof.
  induction regs as [| r regs IH] using rev_ind; intros Hregs.
  - cbn. apply lookup_empty.
  - apply Forall_app in Hregs. destruct Hregs as [Hregs Hr].
    inversion Hr as [| r' tl Hlow _]; subst.
    unfold apply_registrations, last_registered. rewrite !fold_left_app.
    cbn [fold_left]. rewrite registry_after_register.
    fold (apply_registrations regs initial). fold (last_registered c regs).
    rewrite <- (IH Hregs).
    destruct (decide (fst r = c)) as [Heq | Hne].
    + subst c. rewrite decide_True by (apply setter_topic_prefix, Hlow).
      reflexivity.
    + rewrite decide_False by (apply setter_topic_other; assumption).
      reflexivity.
Qed.

(** C1, the 52-week-low setter. A handler registered through
    [on_low_52_week_data_received] is stored under the 52-week-high prefix:
    a message on a 52-week-low topic is dropped although the category has
    a handler, and a message on a 52-week-high topic is delivered to the
    handler registered for 52-week-low. *)
Theorem low_52_week_handler_misrouted (h : handler) (payload : list Byte.byte) :
  let st := register Low52Week (Some h) initial in
  trace (snd (__on_message (prefix_of Low52Week +:+ "123") payload st)) = [] /\
  trace (snd (__on_message (prefix_of High52Week +:+ "123") payload st)) =
    [Data h payload "123"].
Proof.
  intros st. rewrite !on_message_dispatch. unfold st.
  rewrite !registry_after_register.
  rewrite decide_False by discriminate.
  rewrite decide_True by reflexivity.
  split; reflexivity.
Qed.

(** A suffix without the marker reaches the handler whole. *)
Lemma marker_free_suffix_delivered (c : Category) (s : string) (h : handler)
    (payload : list Byte.byte) (st : Connect) :
  has_marker s = false ->
  topic_handler st !! prefix_of c = Some (Some h) ->
  trace (snd (__on_message (prefix_of c +:+ s) payload st)) =
    trace st ++ [Data h payload s].
Proof.
  intros Hm Hh. rewrite on_message_dispatch, Hh, first_piece_no_marker by exact Hm.
  reflexivity.
Qed.

(** C5, a suffix that contains the marker. ["nsev1/22"] is a valid suffix;
    a message on the feed topic with that suffix reaches the feed handler
    with ["nse"], the piece between the first and the second occurrence of
    the marker, not with the remainder of the topic after the first. *)
Theorem marker_inside_suffix_truncated (h : handler) (payload : list Byte.byte) :
  let st := register Feed (Some h) initial in
  validate "nsev1/22" = true /\
  trace (snd (__on_message (prefix_of Feed +:+ "nsev1/22") payload st)) =
    [Data h payload "nse"].
Proof.
  intros st. split; [ reflexivity | ].
  rewrite on_message_dispatch. unfold st.
  rewrite registry_after_register, decide_True by reflexivity.
  reflexivity.
Qed.

(** ** What an operation leaves alone *)

Section Frame.
Context {T : Type} (f : Connect -> T).
Hypothesis f_event : forall ev st, f (add_event ev st) = f st.
Hypothesis f_count : forall n st, f (with_count n st) = f st.

Lemma keeps_ret {A} (a : A) : keeps f (ret a).
Proof. intros st. reflexivity. Qed.

Lemma keeps_raise {A} (ex : exn) : keeps f (@raise A ex).
Proof. intros st. reflexivity. Qed.

Lemma keeps_lift {A} (r : exn + A) : keeps f (lift r).
Proof. intros st. reflexivity. Qed.

Lemma keeps_get : keeps f get.
Proof. intros st. reflexivity. Qed.

Lemma keeps_emit (ev : event) : keeps f (emit ev).
Proof. intros st. apply f_event. Qed.

Lemma keeps_set_count (n : Z) : keeps f (set_count n).
Proof. intros st. apply f_count. Qed.

Lemma keeps_bind {A B} (m : M A) (k : A -> M B) :
  keeps f m -> (forall a, keeps f (k a)) -> keeps f (bind m k).
Proof.
  intros Hm Hk st. unfold bind. specialize (Hm st).
  destruct (m st) as [[ex | a] st1]; cbn [snd] in *.
  - exact Hm.
  - rewrite (Hk a st1). exact Hm.
Qed.

Lemma keeps_try_except {A} (body : M A) (h : exn -> M A) :
  keeps f body -> (forall ex, keeps f (h ex)) -> keeps f (try_except body h).
Proof.
  intros Hm Hh st. unfold try_except. specialize (Hm st).
  destruct (body st) as [[ex | a] st1]; cbn [snd] in *.
  - rewrite (Hh ex st1). exact Hm.
  - exact Hm.
Qed.

(** Takes a computation apart along its binds and branches. *)
Ltac frame :=
  repeat first
    [ apply keeps_ret | apply keeps_raise | apply keeps_lift
    | apply keeps_get | apply keeps_emit | apply keeps_set_count
    | apply keeps_bind; [ | intro ]
    | apply keeps_try_except; [ | intro ]
    | match goal with
      | |- keeps _ (match ?x with _ => _ end) => destruct x
      end ].

Lemma keeps_notify_error code msg : keeps f (notify_error code msg).
Proof. intros st. unfold notify_error. run. destruct (on_error st); [ apply f_event | reflexivity ]. Qed.

Lemma keeps_call_on_error code msg : keeps f (call_on_error code msg).
Proof. intros st. unfold call_on_error. run. destruct (on_error st); [ apply f_event | reflexivity ]. Qed.

Lemma keeps_notify_ack a : keeps f (notify_ack a).
Proof.
  intros st. unfold notify_ack. run.
  destruct (on_acknowledge_response st); [ apply f_event | reflexivity ].
Qed.

Ltac frame_all :=
  repeat first
    [ apply keeps_notify_error | apply keeps_call_on_error
    | apply keeps_notify_ack | progress frame ].

Lemma keeps_connect_host w req : keeps f (connect_host w req).
Proof.
  unfold connect_host, connect_body, connect_handler, is_host_connected,
    __validate_Token.
  frame_all.
Qed.

Lemma keeps_unsubscribe w req p : keeps f (__unsubscribe w req p).
Proof.
  unfold __unsubscribe, unsubscribe_body, feed_handler, submit_unsubscribe,
    _build_unsubscribe_options.
  frame_all.
Qed.

Lemma keeps_disconnect_host w : keeps f (disconnect_host w).
Proof. unfold disconnect_host, disconnect_body. frame_all. Qed.

Lemma keeps_on_message tp payload : keeps f (__on_message tp payload).
Proof. unfold __on_message, on_message_body. frame_all. Qed.

Lemma keeps_on_message_of tp payload : keeps f (__on_message_of tp payload).
Proof. unfold __on_message_of, on_message_of_body, on_message_body. frame_all. Qed.

Lemma keeps_on_connect rc : keeps f (__on_connect rc).
Proof. unfold __on_connect. frame_all. Qed.

Lemma keeps_on_disconnect rc : keeps f (__on_disconnect rc).
Proof. unfold __on_disconnect. frame_all. Qed.

Lemma keeps_on_unsubscribe mid rcl pt : keeps f (__on_unsubscribe mid rcl pt).
Proof. unfold __on_unsubscribe. frame_all. Qed.

(** Subscribe and its acknowledgment write the pending table only. *)
Hypothesis f_subscriptions : forall m st, f (with_subscriptions m st) = f st.

Lemma keeps_set_subscriptions m : keeps f (set_subscriptions m).
Proof. intros st. apply f_subscriptions. Qed.

Lemma keeps_subscribe w req p : keeps f (__subscribe w req p).
Proof.
  unfold __subscribe, subscribe_body, feed_handler, submit_subscribe,
    _build_subscription_topics.
  repeat first [ apply keeps_set_subscriptions | progress frame_all ].
Qed.

Lemma keeps_on_subscribe mid rcl : keeps f (__on_subscribe mid rcl).
Proof.
  unfold __on_subscribe, on_subscribe_body.
  repeat first [ apply keeps_set_subscriptions | progress frame_all ].
Qed.
End Frame.

(** ** Connect on an open connection *)

(** While the client reports an open connection, no connect request
    makes [connect_host] call into the transport. *)
Lemma connect_when_connected_quiet (w : World) (req : request) (st : Connect) :
  w_is_connected w = inr true ->
  calls_of (trace (snd (connect_host w req st))) = calls_of (trace st).
Proof.
  intros Hconn.
  unfold connect_host, connect_body, connect_handler, is_host_connected,
    __validate_Token.
  assert (Hquiet : forall code text r,
            calls_of (trace (snd (bind (notify_error code text)
                                    (fun _ => @ret ConnectionResponse r) st))) =
            calls_of (trace st)).
  { intros code text r. run. destruct (on_error st); [ | reflexivity ].
    cbn [snd add_event trace]. rewrite calls_of_app. apply app_nil_r. }
  destruct req as [ | msg | req_data ].
  - reflexivity.
  - apply Hquiet.
  - unfold try_except, bind at 1, lift.
    destruct (subscript req_data "token") as [ex | token].
    + destruct ex as [msg | k | [n |] msg | cls msg];
        try apply Hquiet; try reflexivity.
      destruct (n =? 11001); [ | apply Hquiet ].
      run. destruct (on_error st); [ | reflexivity ].
      cbn [snd add_event trace]. rewrite calls_of_app. apply app_nil_r.
    + unfold bind at 1.
      destruct (w_validate w (w_user_name w token) token) as [msg | msg | ex].
      * run. rewrite Hconn. reflexivity.
      * reflexivity.
      * run. destruct (on_error st); [ | reflexivity ].
        cbn [fst snd negb add_event trace]. rewrite calls_of_app. apply app_nil_r.
Qed.

(** C6, counterexample. A well-formed connect request, on an open
    connection and with a handler registered, whose token the identity
    service rejects: the identity check comes before the test of the
    connection, so the result has status 1 with the message of the
    service, not status 105. *)
Lemma connect_rejected_token_on_open_connection :
  w_is_connected rejecting_world = inr true /\
  connect_host rejecting_world
    (connection_request "bridge.iiflcapital.com" 9906 "expired")
    (register Feed (Some 3%nat) initial) =
    (inr (mkConnectionResponse 1 "Token expired"),
     register Feed (Some 3%nat) initial).
Proof. split; reflexivity. Qed.

(** C6, amended. While the client reports an open connection, no connect
    request makes the instance call into the transport, and none alters
    the pending subscriptions or the registered handlers. A request that
    parses to an object with a token gets status 105 when the identity
    check, which runs first, accepts the token, and status 1 with the
    message of the identity service when it rejects the token; in both
    cases the instance is left exactly as it was. *)
Theorem connect_when_connected
    (w : World) (st : Connect) (o : list (string * json)) (token : json)
    (msg : string) (req : request) :
  w_is_connected w = inr true ->
  (calls_of (trace (snd (connect_host w req st))) = calls_of (trace st) /\
   subscriptions (snd (connect_host w req st)) = subscriptions st /\
   topic_handler (snd (connect_host w req st)) = topic_handler st) /\
  (dict_get "token" o = Some token ->
   w_validate w (w_user_name w token) token = Accepted msg ->
   connect_host w (ReqJson (JObj o)) st =
     (inr (mkConnectionResponse 105 "Client is already connected"), st)) /\
  (dict_get "token" o = Some token ->
   w_validate w (w_user_name w token) token = Rejected msg ->
   connect_host w (ReqJson (JObj o)) st =
     (inr (mkConnectionResponse 1 msg), st)).
Proof.
  intros Hconn. split; [ split; [ | split ] | split ].
  - apply connect_when_connected_quiet, Hconn.
  - apply (keeps_connect_host subscriptions); reflexivity.
  - apply (keeps_connect_host topic_handler); reflexivity.
  - intros Htok Hval.
    unfold connect_host, connect_body, is_host_connected, __validate_Token, subscript.
    rewrite Htok. run. rewrite Hval, Hconn. reflexivity.
  - intros Htok Hval.
    unfold connect_host, connect_body, __validate_Token, subscript.
    rewrite Htok. run. rewrite Hval. reflexivity.
Qed.

Lemma connect_when_connected_witness :
  connect_host connected_world
    (connection_request "bridge.iiflcapital.com" 9906 "token") initial =
    (inr (mkConnectionResponse 105 "Client is already connected"), initial).
Proof.
  apply (proj1 (proj2 (connect_when_connected connected_world initial
                  [("host", JStr "bridge.iiflcapital.com"); ("port", JNum 9906);
                   ("token", JStr "token")]
                  (JStr "token") "Token is valid" ReqEmpty eq_refl)));
    reflexivity.
Defined.

(** ** The pending table *)

Lemma subscription_loop_wf (c : Category) (items : list json) :
  forall valid_topics failed,
    Forall wf_topic valid_topics ->
    Forall wf_topic (snd (fst (subscription_loop (prefix_of c) items
                                 valid_topics failed))).
Proof.
  induction items as [| t rest IH]; intros v f Hv; cbn [subscription_loop].
  - exact Hv.
  - destruct t as [ | b | z | s | l | o ]; try exact Hv.
    destruct (validate s) eqn:Hs.
    + apply IH. apply Forall_app. split; [ exact Hv | ].
      constructor; [ | constructor ]. exists c, s. split; [ reflexivity | exact Hs ].
    + apply IH. exact Hv.
Qed.

(** What a subscribe call does to the pending table: nothing, or one entry
    of well-formed topics under the id the transport returned. *)
Lemma subscribe_pending (w : World) (c : Category) (req : request)
    (st : Connect) :
  subscriptions (snd (subscribe w c req st)) = subscriptions st \/
  exists mid l, Forall wf_topic l /\ l <> [] /\
    subscriptions (snd (subscribe w c req st)) = <[mid := l]> (subscriptions st).
Proof.
  unfold subscribe, __subscribe, subscribe_body.
  destruct req as [ | msg | req_data ]; run;
    [ left; reflexivity | left; destruct (on_error st); reflexivity | ].
  destruct (subscript req_data "subscriptionList") as [ex | lst]; run;
    [ left; destruct (on_error st); reflexivity | ].
  destruct (within_bounds lst) as [ex | [ | ]]; run;
    [ left; destruct (on_error st); reflexivity | | left; reflexivity ].
  unfold _build_subscription_topics.
  assert (Hsubmit : forall v fl st1,
    Forall wf_topic v ->
    subscriptions st1 = subscriptions st ->
    subscriptions (snd (try_except (submit_subscribe w v fl) feed_handler st1))
      = subscriptions st \/
    exists mid l, Forall wf_topic l /\ l <> [] /\
      subscriptions (snd (try_except (submit_subscribe w v fl) feed_handler st1))
        = <[mid := l]> (subscriptions st)).
  { intros v fl st1 Hwf Hst1. unfold submit_subscribe.
    destruct v as [| t ts]; cbn [is_nil]; [ left; exact Hst1 | ].
    run. destruct (w_subscribe w (t :: ts)) as [ex | [rc mid]]; cbn [fst snd].
    - left. cbn [add_event on_error]. destruct (on_error st1); exact Hst1.
    - destruct (rc =? 0); cbn [fst snd].
      + right. exists mid, (t :: ts). split; [ exact Hwf | ].
        split; [ discriminate | ].
        cbn [with_subscriptions add_event subscriptions]. rewrite Hst1. reflexivity.
      + left. exact Hst1. }
  unfold _build_subscription_topics.
  destruct (py_iter lst) as [ex | items]; run.
  { destruct (on_error st);
      [ apply (Hsubmit [] [] (add_event _ st)) | apply (Hsubmit [] [] st) ];
      solve [ constructor | reflexivity ]. }
  assert (Hnil : Forall wf_topic []) by constructor.
  pose proof (subscription_loop_wf c items [] [] Hnil) as Hwf.
  destruct (subscription_loop (prefix_of c) items [] []) as [[oex v] fl].
  cbn [fst snd] in Hwf.
  destruct oex as [ex | ]; run.
  - destruct (on_error st);
      [ apply (Hsubmit v fl (add_event _ st)) | apply (Hsubmit v fl st) ];
      solve [ exact Hwf | reflexivity ].
  - apply (Hsubmit v fl st); [ exact Hwf | reflexivity ].
Qed.

Lemma ack_results_wf (l : list (string * Z)) :
  Forall wf_topic l ->
  forall rcl,
    ack_results (py_zip rcl (map (fun t => ItTuple (fst t) (snd t)) l)) =
    inr (map ack_entry (py_zip rcl l)).
Proof.
  induction 1 as [| t l [c [s [Ht Hs]]] Hl IH]; intros rcl.
  - destruct rcl; reflexivity.
  - destruct rcl as [| rc rcl]; [ reflexivity | ].
    cbn [map py_zip ack_results]. rewrite IH.
    unfold ack_result, ack_entry, item0. cbn [fst snd].
    subst t. unfold prefixed. cbn [fst snd].
    destruct (second_piece_of_topic c s) as [_ Hsecond].
    rewrite Hsecond. rewrite (nth_error_nth _ _ _ Hsecond). reflexivity.
Qed.

(** An acknowledgment for an id of the table: the entry goes, and the
    results are forwarded, unless there is no reason code to take the
    packet type from. *)
Lemma on_subscribe_present (st : Connect) (mid : Z) (l : list (string * Z))
    (rcl : list ReasonCode) :
  subscriptions st !! mid = Some l ->
  Forall wf_topic l ->
  __on_subscribe mid rcl st =
    (inr tt,
     match rcl with
     | [] => reported "list index out of range"
               (with_subscriptions (delete mid (subscriptions st)) st)
     | rc0 :: _ =>
         acked (SubscribeAckResponse (rc_packetType rc0) "SUBACK"
                  (map ack_entry (py_zip rcl l)))
           (with_subscriptions (delete mid (subscriptions st)) st)
     end).
Proof.
  intros Hmid Hwf. unfold __on_subscribe, on_subscribe_body, pending_items.
  run. rewrite Hmid, (ack_results_wf l Hwf rcl).
  destruct rcl as [| rc0 rcl]; unfold reported, acked;
    cbn [on_error on_acknowledge_response with_subscriptions].
  - destruct (on_error st); reflexivity.
  - destruct (on_acknowledge_response st); reflexivity.
Qed.

(** An acknowledgment for an id that is not in the table: nothing changes
    but for one report to the error callback, if there is one. *)
Lemma on_subscribe_absent (st : Connect) (mid : Z) (rcl : list ReasonCode) :
  subscriptions st !! mid = None ->
  __on_subscribe mid rcl st =
    (inr tt,
     reported (match rcl with
               | [] => pretty mid
               | _ :: _ => "list index out of range"
               end) st).
Proof.
  intros Hmid. unfold __on_subscribe, on_subscribe_body, pending_items.
  run. rewrite Hmid. unfold reported.
  destruct rcl as [| rc0 [| rc1 rcl]]; cbn [py_zip ack_results];
    unfold ack_result; cbn [snd item0]; cbv -[pretty add_event on_error];
    destruct (on_error st); reflexivity.
Qed.

(** ** Reachable states *)

Lemma pending_wf_initial : pending_wf initial.
Proof. intros mid l H. cbn [initial subscriptions] in H. rewrite lookup_empty in H. discriminate. Qed.

Lemma pending_wf_same (st st' : Connect) :
  subscriptions st' = subscriptions st -> pending_wf st -> pending_wf st'.
Proof. intros Heq Hwf mid l H. rewrite Heq in H. exact (Hwf mid l H). Qed.

Lemma on_subscribe_pending (st : Connect) (mid : Z) (rcl : list ReasonCode) :
  pending_wf st ->
  subscriptions (snd (__on_subscribe mid rcl st)) = delete mid (subscriptions st).
Proof.
  intros Hwf. destruct (subscriptions st !! mid) as [l |] eqn:Hmid.
  - rewrite (on_subscribe_present st mid l rcl Hmid (Hwf mid l Hmid)).
    unfold reported, acked. cbn [snd on_error on_acknowledge_response with_subscriptions].
    destruct rcl; [ destruct (on_error st) | destruct (on_acknowledge_response st) ];
      reflexivity.
  - rewrite (on_subscribe_absent st mid rcl Hmid). cbn [snd].
    rewrite delete_id by exact Hmid.
    unfold reported. destruct (on_error st); reflexivity.
Qed.

Lemma step_pending_wf (st st' : Connect) :
  step st st' -> pending_wf st -> pending_wf st'.
Proof.
  intros Hstep Hwf. destruct Hstep.
  - exact Hwf.
  - exact Hwf.
  - exact Hwf.
  - apply (pending_wf_same st); [ | exact Hwf ].
    apply (keeps_connect_host subscriptions); reflexivity.
  - destruct (subscribe_pending w c req st) as [Hsame | [mid [l [Hl [_ Hins]]]]].
    + apply (pending_wf_same st); assumption.
    + intros mid' l' H. rewrite Hins in H.
      destruct (decide (mid = mid')) as [-> | Hne].
      * rewrite lookup_insert_eq in H. injection H as <-. exact Hl.
      * rewrite lookup_insert_ne in H by exact Hne. exact (Hwf mid' l' H).
  - apply (pending_wf_same st); [ | exact Hwf ].
    apply (keeps_unsubscribe subscriptions); reflexivity.
  - apply (pending_wf_same st); [ | exact Hwf ].
    apply (keeps_disconnect_host subscriptions); reflexivity.
  - apply (pending_wf_same st); [ | exact Hwf ].
    apply (keeps_on_message subscriptions); reflexivity.
  - apply (pending_wf_same st); [ | exact Hwf ].
    apply (keeps_on_message_of subscriptions); reflexivity.
  - apply (pending_wf_same st); [ | exact Hwf ].
    apply (keeps_on_connect subscriptions); reflexivity.
  - apply (pending_wf_same st); [ | exact Hwf ].
    apply (keeps_on_disconnect subscriptions); reflexivity.
  - intros mid' l' H. rewrite (on_subscribe_pending st mid rcl Hwf) in H.
    apply lookup_delete_Some in H. exact (Hwf mid' l' (proj2 H)).
  - apply (pending_wf_same st); [ | exact Hwf ].
    apply (keeps_on_unsubscribe subscriptions); reflexivity.
Qed.

(** In every state a session can reach, the pending table holds
    well-formed topics only. *)
Lemma reachable_pending_wf (st : Connect) : reachable st -> pending_wf st.
Proof.
  induction 1 as [| st st' _ IH Hstep].
  - exact pending_wf_initial.
  - exact (step_pending_wf st st' Hstep IH).
Qed.

(** A batch with a valid suffix, accepted by the transport under the id
    [mid]: the prefixed valid topics are recorded under [mid]. *)
Lemma subscribe_records (w : World) (p : string) (st : Connect)
    (o : list (string * json)) (l : list string) (mid : Z) :
  dict_get "subscriptionList" o = Some (JArr (map JStr l)) ->
  (1 <= length l <= 1024)%nat ->
  List.filter validate l <> [] ->
  w_subscribe w (map (prefixed p) (List.filter validate l)) = inr (0, mid) ->
  subscriptions (snd (__subscribe w (ReqJson (JObj o)) p st)) =
    <[mid := map (prefixed p) (List.filter validate l)]> (subscriptions st).
Proof.
  intros Hget Hlen Hsome Hres. unfold __subscribe, try_except.
  rewrite (subscribe_body_strings w p o l st Hget Hlen).
  unfold submit_subscribe.
  destruct (List.filter validate l) as [| s ss] eqn:Hf; [ congruence | ].
  cbn [map is_nil] in *. run. rewrite Hres. reflexivity.
Qed.

(** ** Acknowledgment of a subscription *)

(** C2. In a state a session can reach: a subscribe-ack never lets an
    exception out; when its id is in the pending table, the ack removes
    that entry and no other; when its id is not in the table, the ack
    changes nothing but for one report to the error callback, if one is
    registered; and a second ack for the same id is of that second kind. *)
Theorem subscribe_ack_resolves_once
    (st : Connect) (mid : Z) (rcl rcl' : list ReasonCode) :
  reachable st ->
  let first := __on_subscribe mid rcl st in
  let second := __on_subscribe mid rcl' (snd first) in
  (is_Some (subscriptions st !! mid) ->
     fst first = inr tt /\
     subscriptions (snd first) = delete mid (subscriptions st)) /\
  (subscriptions st !! mid = None ->
     fst first = inr tt /\ exists msg, snd first = reported msg st) /\
  fst second = inr tt /\
  exists msg, snd second = reported msg (snd first).
Proof.
  intros Hreach first second.
  pose proof (reachable_pending_wf st Hreach) as Hwf.
  assert (Hgone : subscriptions (snd first) !! mid = None).
  { unfold first. rewrite (on_subscribe_pending st mid rcl Hwf).
    apply lookup_delete_eq. }
  split; [ | split ].
  - intros [l Hl]. unfold first.
    rewrite (on_subscribe_present st mid l rcl Hl (Hwf mid l Hl)).
    split; [ reflexivity | ].
    rewrite <- (on_subscribe_present st mid l rcl Hl (Hwf mid l Hl)).
    apply on_subscribe_pending, Hwf.
  - intros Hnone. unfold first. rewrite (on_subscribe_absent st mid rcl Hnone).
    split; [ reflexivity | eexists; reflexivity ].
  - unfold second. rewrite (on_subscribe_absent (snd first) mid rcl' Hgone).
    split; [ reflexivity | eexists; reflexivity ].
Qed.

Lemma subscribe_ack_resolves_once_witness :
  let st := snd (subscribe calm_world Feed
                   (subscription_request ["nseeq/2285"]) initial) in
  let first := __on_subscribe 7 [mkReasonCode 0 9 "Granted QoS 0"] st in
  subscriptions st !! 7 = Some [("prod/marketfeed/mw/v1/nseeq/2285", 0)] /\
  fst first = inr tt /\
  subscriptions (snd first) = delete 7 (subscriptions st).
Proof.
  intros st first.
  assert (Hreach : reachable st)
    by exact (reach_step _ _ reach_initial
                (step_subscribe calm_world Feed
                   (subscription_request ["nseeq/2285"]) initial)).
  assert (Hin : subscriptions st !! 7 = Some [("prod/marketfeed/mw/v1/nseeq/2285", 0)])
    by (vm_compute; reflexivity).
  split; [ exact Hin | ].
  exact (proj1 (subscribe_ack_resolves_once st 7
                  [mkReasonCode 0 9 "Granted QoS 0"] [] Hreach)
           (ex_intro _ _ Hin)).
Defined.

(** With a reason code to take the packet type from, the acknowledgment
    of a pending request forwards one event: the reason codes paired with
    the stored topics, position by position, up to the shorter list. *)
Lemma subscribe_ack_forwarded (st : Connect) (mid : Z)
    (l : list (string * Z)) (rc0 : ReasonCode) (rcl : list ReasonCode)
    (h : handler) :
  reachable st ->
  subscriptions st !! mid = Some l ->
  on_acknowledge_response st = Some h ->
  trace (snd (__on_subscribe mid (rc0 :: rcl) st)) =
    trace st ++ [Ack h (SubscribeAckResponse (rc_packetType rc0) "SUBACK"
                          (map ack_entry (py_zip (rc0 :: rcl) l)))].
Proof.
  intros Hreach Hl Hack.
  rewrite (on_subscribe_present st mid l _ Hl (reachable_pending_wf st Hreach mid l Hl)).
  unfold acked. cbn [snd on_acknowledge_response with_subscriptions].
  rewrite Hack. reflexivity.
Qed.

Lemma py_zip_length {A B : Type} (a : list A) (b : list B) :
  length (py_zip a b) = Nat.min (length a) (length b).
Proof.
  revert b. induction a as [| x a IH]; intros [| y b]; cbn [py_zip length Nat.min];
    try reflexivity.
  rewrite IH. reflexivity.
Qed.

(** The result for a topic whose suffix is free of the marker: granted
    exactly for reason code 0, with the suffix as it was submitted. *)
Lemma ack_entry_marker_free (rc : ReasonCode) (c : Category) (s : string) :
  has_marker s = false ->
  ack_entry (rc, prefixed (prefix_of c) s) =
    mkSubscribeResult (rc_value rc)
      (if rc_value rc =? 0 then "Granted" else "Not Granted") s.
Proof.
  intros Hm. unfold ack_entry, prefixed. cbn [fst snd].
  destruct (second_piece_of_topic c s) as [_ Hsecond].
  rewrite (nth_error_nth _ _ _ Hsecond), first_piece_no_marker by exact Hm.
  reflexivity.
Qed.

(** C8, a suffix that contains the marker, and an ack without reason
    codes. After the valid suffix ["nsev1/22"] is submitted for the feed
    category and the transport numbers the request 7: the ack [7, [0]]
    reports the topic as ["nse"], not as the suffix that was submitted;
    and the ack [7, []] forwards no acknowledgment event at all, only a
    report to the error callback. *)
Theorem ack_suffix_truncated_at_marker :
  let st0 := set_on_error (Some 6%nat)
               (set_on_acknowledge_response (Some 5%nat) initial) in
  let st := snd (subscribe calm_world Feed (subscription_request ["nsev1/22"]) st0) in
  subscriptions st !! 7 = Some [("prod/marketfeed/mw/v1/nsev1/22", 0)] /\
  trace (snd (__on_subscribe 7 [mkReasonCode 0 9 "Granted QoS 0"] st)) =
    trace st ++ [Ack 5%nat (SubscribeAckResponse 9 "SUBACK"
                              [mkSubscribeResult 0 "Granted" "nse"])] /\
  trace (snd (__on_subscribe 7 [] st)) =
    trace st ++ [Error 6%nat (-1) "list index out of range"].
Proof.
  intros st0 st.
  assert (Hin : subscriptions st !! 7 = Some [("prod/marketfeed/mw/v1/nsev1/22", 0)])
    by (vm_compute; reflexivity).
  assert (Hwf : Forall wf_topic [("prod/marketfeed/mw/v1/nsev1/22", 0)]).
  { constructor; [ | constructor ]. exists Feed, "nsev1/22". split; reflexivity. }
  split; [ exact Hin | ].
  rewrite !(on_subscribe_present st 7 _ _ Hin Hwf).
  split; reflexivity.
Qed.

(** ** Exceptions at the public boundary *)

(** C3, counterexample. A connect request that is valid JSON but not an
    object: the [TypeError] of [req_data["token"]] reaches the last
    [except] clause, whose read of [ex.errno] raises, and that exception
    leaves [connect_host]. And a subscribe batch holding a number: the
    exception of the validation is kept inside the builder, and the
    result has status 103, not -1. *)
Lemma connect_lets_exception_out :
  connect_host calm_world (ReqJson (JArr [JNum 1])) initial =
    (inl (AttributeError "'TypeError' object has no attribute 'errno'"), initial) /\
  __subscribe calm_world (ReqJson (JObj [("subscriptionList", JArr [JNum 5])]))
    mw_topic (set_on_error (Some 6%nat) initial) =
    (inr (mkSubscribeFeedResponse 103 (Some "Subscripton failed") []),
     add_event (Error 6%nat (-1) "expected string or bytes-like object, got 'int'")
       (set_on_error (Some 6%nat) initial)).
Proof. split; reflexivity. Qed.

Lemma reported_run (msg : string) (st : Connect) :
  notify_error (-1) msg st = (inr tt, reported msg st).
Proof. unfold reported. run. destruct (on_error st); reflexivity. Qed.

Lemma feed_handler_run (ex : exn) (st : Connect) :
  feed_handler ex st =
    (inr (mkSubscribeFeedResponse (-1) (Some (report_text ex)) []),
     reported (report_text ex) st).
Proof. unfold feed_handler, bind. rewrite reported_run. reflexivity. Qed.

(** C3, amended. Subscribe, unsubscribe and disconnect always return a
    result. An exception raised in the body of one of them gives the
    status -1 result with the text derived from the exception, and one
    report to the error callback if it is registered. An exception raised
    while the topics of a batch are validated stays inside the builder: it
    is reported to the error callback and the operation goes on with the
    topics collected so far. Connect gives the same status -1 result for a
    decode error, a missing key and an exception whose [errno] is not
    11001; for [errno] 11001, with an error callback registered, it gives
    status 11001 with the text "Invalid host name". *)
Theorem exceptions_become_results
    (w : World) (req : request) (p : string) (st : Connect) :
  (exists r, fst (__subscribe w req p st) = inr r) /\
  (exists r, fst (__unsubscribe w req p st) = inr r) /\
  (exists r, fst (disconnect_host w st) = inr r) /\
  (forall ex st1, subscribe_body w req p st = (inl ex, st1) ->
     __subscribe w req p st =
       (inr (mkSubscribeFeedResponse (-1) (Some (report_text ex)) []),
        reported (report_text ex) st1)) /\
  (forall ex st1, unsubscribe_body w req p st = (inl ex, st1) ->
     __unsubscribe w req p st =
       (inr (mkSubscribeFeedResponse (-1) (Some (report_text ex)) []),
        reported (report_text ex) st1)) /\
  (forall ex st1, disconnect_body w st = (inl ex, st1) ->
     disconnect_host w st =
       (inr (mkConnectionResponse (-1) (str_of_exn ex)),
        reported (str_of_exn ex) st1)) /\
  (forall ex st1, connect_body w req st = (inl ex, st1) -> plain_failure ex ->
     connect_host w req st =
       (inr (mkConnectionResponse (-1) (report_text ex)),
        reported (report_text ex) st1)) /\
  (forall msg st1 h,
     connect_body w req st = (inl (OSError (Some 11001) msg), st1) ->
     on_error st1 = Some h ->
     connect_host w req st =
       (inr (mkConnectionResponse 11001 "Invalid host name"),
        add_event (Error h 11001 "Invalid host name") st1)) /\
  (forall lst items ex v fl,
     py_iter lst = inr items ->
     subscription_loop p items [] [] = (Some ex, v, fl) ->
     _build_subscription_topics lst p st =
       (inr (v, fl), reported (str_of_exn ex) st)) /\
  (forall lst items ex v fl,
     py_iter lst = inr items ->
     unsubscribe_loop p items [] [] = (Some ex, v, fl) ->
     _build_unsubscribe_options lst p st =
       (inr (v, fl), reported (str_of_exn ex) st)).
Proof.
  repeat match goal with |- _ /\ _ => split end.
  - unfold __subscribe, try_except.
    destruct (subscribe_body w req p st) as [[ex | r] st1].
    + rewrite feed_handler_run. eexists. reflexivity.
    + eexists. reflexivity.
  - unfold __unsubscribe, try_except.
    destruct (unsubscribe_body w req p st) as [[ex | r] st1].
    + rewrite feed_handler_run. eexists. reflexivity.
    + eexists. reflexivity.
  - unfold disconnect_host, try_except.
    destruct (disconnect_body w st) as [[ex | r] st1].
    + unfold bind. rewrite reported_run. eexists. reflexivity.
    + eexists. reflexivity.
  - intros ex st1 H. unfold __subscribe, try_except. rewrite H.
    apply feed_handler_run.
  - intros ex st1 H. unfold __unsubscribe, try_except. rewrite H.
    apply feed_handler_run.
  - intros ex st1 H. unfold disconnect_host, try_except. rewrite H.
    unfold bind. rewrite reported_run. reflexivity.
  - intros ex st1 H Hplain. unfold connect_host, try_except. rewrite H.
    destruct ex as [msg | k | errno msg | cls msg]; cbn [plain_failure] in Hplain;
      cbn [connect_handler report_text str_of_exn].
    + unfold bind. rewrite reported_run. reflexivity.
    + unfold bind. rewrite reported_run. reflexivity.
    + destruct errno as [n |].
      * destruct (n =? 11001) eqn:Hn.
        -- apply Z.eqb_eq in Hn. subst n. contradiction Hplain. reflexivity.
        -- unfold bind. rewrite reported_run. reflexivity.
      * unfold bind. rewrite reported_run. reflexivity.
    + contradiction.
  - intros msg st1 h H Hh. unfold connect_host, try_except. rewrite H.
    cbn [connect_handler]. change (11001 =? 11001) with true. cbv iota.
    run. rewrite Hh. reflexivity.
  - intros lst items ex v fl Hit Hloop. unfold _build_subscription_topics.
    rewrite Hit, Hloop. unfold bind. rewrite reported_run. reflexivity.
  - intros lst items ex v fl Hit Hloop. unfold _build_unsubscribe_options.
    rewrite Hit, Hloop. unfold bind. rewrite reported_run. reflexivity.
Qed.

Lemma exceptions_become_results_witness :
  __subscribe calm_world (ReqInvalid "Expecting value: line 1 column 1 (char 0)")
    mw_topic initial =
    (inr (mkSubscribeFeedResponse (-1)
            (Some "Invalid JSON: Expecting value: line 1 column 1 (char 0)") []),
     initial) /\
  connect_host calm_world (ReqJson (JObj [("host", JStr "h")])) initial =
    (inr (mkConnectionResponse (-1) "The parameter 'token' should not be empty"),
     initial).
Proof.
  pose proof (exceptions_become_results calm_world
                (ReqInvalid "Expecting value: line 1 column 1 (char 0)")
                mw_topic initial) as Hsub.
  pose proof (exceptions_become_results calm_world
                (ReqJson (JObj [("host", JStr "h")])) mw_topic initial) as Hcon.
  split.
  - exact (proj1 (proj2 (proj2 (proj2 Hsub))) _ _ eq_refl).
  - exact (proj1 (proj2 (proj2 (proj2 (proj2 (proj2 (proj2 Hcon))))))
             (KeyError (KStr "token")) initial eq_refl I).
Defined.

(** ** The unsubscribe path *)

(** C10, counterexample. An unsubscribe request for one valid topic,
    accepted by the transport: the instance afterwards is the one before
    plus the recorded transport call. No table holds an entry for the
    request, neither under the topic string nor under anything else. *)
Lemma unsubscribe_records_nothing :
  let out := __unsubscribe calm_world (unsubscription_request ["nseeq/2285"])
               mw_topic initial in
  out = (inr (mkSubscribeFeedResponse 0 (Some "No error.") []),
         add_event (Call (MqttUnsubscribe ["prod/marketfeed/mw/v1/nseeq/2285"]))
           initial) /\
  subscriptions (snd out) = ∅ /\ topic_handler (snd out) = ∅ /\ attrs (snd out) = ∅.
Proof. repeat split. Qed.

Lemma submit_unsubscribe_ids (g : Z -> Z) (w : World) (v : list string)
    (fl : list SubscribeResult) (st : Connect) :
  submit_unsubscribe (with_unsubscribe_ids g w) v fl st = submit_unsubscribe w v fl st.
Proof.
  unfold submit_unsubscribe. destruct (is_nil v); [ reflexivity | ].
  run. cbn [w_unsubscribe w_error_string with_unsubscribe_ids].
  destruct (w_unsubscribe w v) as [ex | [rc mid]]; reflexivity.
Qed.

Lemma unsubscribe_body_ids (g : Z -> Z) (w : World) (req : request)
    (p : string) (st : Connect) :
  unsubscribe_body (with_unsubscribe_ids g w) req p st = unsubscribe_body w req p st.
Proof.
  unfold unsubscribe_body. destruct req as [ | msg | req_data ]; try reflexivity.
  unfold bind.
  destruct (lift (subscript req_data "unsubscriptionList") st) as [[ex | lst] st1];
    [ reflexivity | ].
  destruct (lift (within_bounds lst) st1) as [[ex | [ | ]] st2]; try reflexivity.
  destruct (_build_unsubscribe_options lst p st2) as [[ex | built] st3];
    [ reflexivity | ].
  apply submit_unsubscribe_ids.
Qed.

(** C10, amended. The unsubscribe path keeps no correlation at all: the
    id the transport returns is not read (a transport returning other ids
    gives the same result and the same instance), and an unsubscribe call
    leaves every field of the instance but the trace as it was, the
    pending table included. Every unsubscribe-ack returns normally and
    forwards to the acknowledgment callback, if one is registered, the
    packet type of the ack with the fixed name, status 0 and message,
    whatever the id, the reason codes and the pending table are. *)
Theorem unsubscribe_keeps_no_correlation
    (w : World) (g : Z -> Z) (req : request) (p : string) (st : Connect)
    (mid mid' : Z) (rcl rcl' : list ReasonCode) (pt : Z)
    (m : gmap Z (list (string * Z))) :
  __unsubscribe (with_unsubscribe_ids g w) req p st = __unsubscribe w req p st /\
  same_but_trace st (snd (__unsubscribe w req p st)) /\
  __on_unsubscribe mid rcl pt st =
    (inr tt,
     acked (UnsubscribeAckResponse pt "UNSUBACK" 0 "Unsubscribed Successfully") st) /\
  __on_unsubscribe mid' rcl' pt st = __on_unsubscribe mid rcl pt st /\
  trace (snd (__on_unsubscribe mid rcl pt (with_subscriptions m st))) =
    trace (snd (__on_unsubscribe mid rcl pt st)).
Proof.
  split; [ | split; [ | split; [ | split ] ] ].
  - unfold __unsubscribe, try_except. rewrite unsubscribe_body_ids. reflexivity.
  - unfold same_but_trace.
    repeat split;
      match goal with
      | |- ?f (snd _) = ?f _ => apply (keeps_unsubscribe f); reflexivity
      end.
  - unfold __on_unsubscribe, acked. run.
    destruct (on_acknowledge_response st); reflexivity.
  - reflexivity.
  - unfold __on_unsubscribe. run. cbn [on_acknowledge_response with_subscriptions].
    destruct (on_acknowledge_response st); reflexivity.
Qed.

(** * Further properties of the class *)

(** ** What a step of a session can change *)

Section StepFrame.
Context {T : Type} (f : Connect -> T).
Hypothesis f_event : forall ev st, f (add_event ev st) = f st.
Hypothesis f_count : forall n st, f (with_count n st) = f st.
Hypothesis f_subscriptions : forall m st, f (with_subscriptions m st) = f st.

(** A part of the instance that no primitive state change touches is
    changed by the three kinds of registration only. *)
Lemma step_frame (st st' : Connect) :
  step st st' ->
  (exists c func, st' = register c func st) \/
  (exists func, st' = set_on_acknowledge_response func st) \/
  (exists func, st' = set_on_error func st) \/
  f st' = f st.
Proof.
  intros Hstep. destruct Hstep.
  - left. eauto.
  - right. left. eauto.
  - right. right. left. eauto.
  - do 3 right. apply keeps_connect_host; assumption.
  - do 3 right. apply keeps_subscribe; assumption.
  - do 3 right. apply keeps_unsubscribe; assumption.
  - do 3 right. apply keeps_disconnect_host; assumption.
  - do 3 right. apply keeps_on_message; assumption.
  - do 3 right. apply keeps_on_message_of; assumption.
  - do 3 right. apply keeps_on_connect; assumption.
  - do 3 right. apply keeps_on_disconnect; assumption.
  - do 3 right. apply keeps_on_subscribe; assumption.
  - do 3 right. apply keeps_on_unsubscribe; assumption.
Qed.
End StepFrame.

(** ** The property getters *)

Lemma mangled_not_setter (c c' : Category) : setter_attr c' <> mangled (setter_attr c).
Proof. destruct c'; intros H; discriminate H. Qed.

Lemma step_private_attrs (st st' : Connect) :
  step st st' ->
  (forall c, attrs st !! mangled (setter_attr c) = None) ->
  forall c, attrs st' !! mangled (setter_attr c) = None.
Proof.
  intros Hstep Hinv c.
  destruct (step_frame attrs (fun _ _ => eq_refl) (fun _ _ => eq_refl)
              (fun _ _ => eq_refl) st st' Hstep)
    as [[c' [func ->]] | [[func ->] | [[func ->] | Hsame]]].
  - unfold register, __set_callback. cbn [attrs].
    rewrite lookup_insert_ne by apply mangled_not_setter. apply Hinv.
  - apply Hinv.
  - apply Hinv.
  - rewrite Hsame. apply Hinv.
Qed.

(** The getter of a data callback returns [None] in every state of a
    session, also right after a handler was registered through the setter
    of the same property: the setter writes the attribute under its
    unmangled name, the getter reads the mangled one. *)
Theorem getter_never_returns_handler (st : Connect) (c : Category) :
  reachable st -> getter c st = None.
Proof.
  intros Hreach. unfold getter.
  assert (Hinv : forall c', attrs st !! mangled (setter_attr c') = None).
  { induction Hreach as [| st st' _ IH Hstep].
    - intros c'. apply lookup_empty.
    - exact (step_private_attrs st st' Hstep IH). }
  rewrite Hinv. reflexivity.
Qed.

Lemma getter_never_returns_handler_witness :
  getter Feed (register Feed (Some 1%nat) initial) = None.
Proof.
  exact (getter_never_returns_handler _ Feed
           (reach_step _ _ reach_initial (step_register Feed (Some 1%nat) initial))).
Defined.

(** ** Inbound messages on any topic *)

(** What [__on_message] does with a message on any topic. *)
Lemma on_message_run (tp : string) (payload : list Byte.byte) (st : Connect) :
  __on_message tp payload st =
    (inr tt,
     match topic_handler st !! (hd "" (re_split tp) +:+ "v1/") with
     | Some (Some h) =>
         match nth_error (re_split tp) 1 with
         | Some suffix =>
             add_event (Data h payload suffix) (with_count (count st + 1) st)
         | None =>
             reported "list index out of range" (with_count (count st + 1) st)
         end
     | _ => with_count (count st + 1) st
     end).
Proof.
  unfold __on_message, on_message_body, reported. run.
  destruct (topic_handler st !! (hd "" (re_split tp) +:+ "v1/")) as [[h |] |];
    try reflexivity.
  destruct (nth_error (re_split tp) 1); [ reflexivity | ].
  cbn [with_count on_error]. destruct (on_error st); reflexivity.
Qed.

(** The first two pieces of a split: the second one begins right after
    the first occurrence of the marker. *)
Lemma re_split_from_second (s cur x y : string) (rest : list string) :
  re_split_from cur s = x :: y :: rest ->
  exists pre r, x = cur +:+ pre /\ s = pre +:+ "v1/" +:+ r /\
                re_split_from "" r = y :: rest.
Proof.
  revert cur. induction s as [| a s1 IH]; intros cur Hsplit.
  - discriminate Hsplit.
  - assert (Hnext : re_split_from (cur +:+ String a "") s1 = x :: y :: rest ->
                    exists pre r, x = cur +:+ pre /\
                                  String a s1 = pre +:+ "v1/" +:+ r /\
                                  re_split_from "" r = y :: rest).
    { intros H. destruct (IH _ H) as [pre [r [Hx [Hs Hr]]]].
      exists (String a pre), r. split; [ | split ].
      - rewrite Hx, append_assoc. reflexivity.
      - rewrite Hs. reflexivity.
      - exact Hr. }
    cbn [re_split_from] in Hsplit.
    destruct s1 as [| b [| c rest']]; try (apply Hnext; exact Hsplit).
    destruct (Ascii.eqb a "v") eqn:Ha; [ | apply Hnext; exact Hsplit ].
    destruct (Ascii.eqb b "1") eqn:Hb; [ | apply Hnext; exact Hsplit ].
    destruct (Ascii.eqb c "/") eqn:Hc; [ | apply Hnext; exact Hsplit ].
    cbn [andb] in Hsplit.
    apply Ascii.eqb_eq in Ha, Hb, Hc. subst a b c.
    injection Hsplit as Hx Hr.
    exists "", rest'. split; [ | split ].
    + rewrite append_empty_r. symmetry. exact Hx.
    + reflexivity.
    + exact Hr.
Qed.

(** In every state of a session, the keys of the registry are topics the
    setters use. *)
Lemma reachable_registry_keys (st : Connect) :
  reachable st ->
  forall k func, topic_handler st !! k = Some func -> exists c, k = setter_topic c.
Proof.
  induction 1 as [| st st' _ IH Hstep]; intros k func Hk.
  - cbn in Hk. rewrite lookup_empty in Hk. discriminate.
  - destruct (step_frame topic_handler (fun _ _ => eq_refl) (fun _ _ => eq_refl)
                (fun _ _ => eq_refl) st st' Hstep)
      as [[c [f ->]] | [[f ->] | [[f ->] | Hsame]]].
    + unfold register, __set_callback in Hk. cbn [topic_handler] in Hk.
      destruct (decide (setter_topic c = k)) as [<- | Hne].
      * exists c. reflexivity.
      * rewrite lookup_insert_ne in Hk by exact Hne. exact (IH k func Hk).
    + exact (IH k func Hk).
    + exact (IH k func Hk).
    + rewrite Hsame in Hk. exact (IH k func Hk).
Qed.

(** In a session, an inbound message leaves no event, or one report to
    the error callback, or one invocation of a data handler; the last only
    when the topic is a topic of the registry followed by a suffix, and
    then the handler stored under that topic gets the payload and the
    first piece of the suffix. A message on any other topic is never
    delivered. *)
Theorem message_delivered_on_registered_prefix_only
    (tp : string) (payload : list Byte.byte) (st : Connect) :
  reachable st ->
  let st' := snd (__on_message tp payload st) in
  trace st' = trace st \/
  (exists h msg, on_error st = Some h /\
                 trace st' = trace st ++ [Error h (-1) msg]) \/
  (exists c s h, tp = setter_topic c +:+ s /\
                 topic_handler st !! setter_topic c = Some (Some h) /\
                 trace st' = trace st ++ [Data h payload (first_piece s)]).
Proof.
  intros Hreach st'. unfold st'. rewrite on_message_run. cbn [snd].
  destruct (topic_handler st !! (hd "" (re_split tp) +:+ "v1/")) as [[h |] |] eqn:Hh;
    try (left; reflexivity).
  destruct (nth_error (re_split tp) 1) as [suffix |] eqn:Hsuffix.
  - right. right.
    destruct (reachable_registry_keys st Hreach _ _ Hh) as [c Hc].
    unfold re_split in *.
    destruct (re_split_from "" tp) as [| x [| y rest]] eqn:Hsplit;
      try discriminate Hsuffix.
    injection Hsuffix as ->.
    destruct (re_split_from_second tp "" x suffix rest Hsplit)
      as [pre [r [Hx [Htp Hr]]]].
    cbn [hd] in Hh, Hc. cbn [String.append] in Hx. subst x.
    exists c, r, h. split; [ | split ].
    + rewrite <- Hc, Htp, append_assoc. reflexivity.
    + rewrite <- Hc. exact Hh.
    + unfold first_piece, re_split. rewrite Hr. reflexivity.
  - unfold reported. cbn [with_count on_error].
    destruct (on_error st) as [e |].
    + right. left. exists e, "list index out of range". split; reflexivity.
    + left. reflexivity.
Qed.

Lemma message_delivered_on_registered_prefix_only_witness :
  let st := register Feed (Some 1%nat) initial in
  let st' := snd (__on_message "prod/marketfeed/index/v1/999" [] st) in
  trace st' = trace st \/
  (exists h msg, on_error st = Some h /\
                 trace st' = trace st ++ [Error h (-1) msg]) \/
  (exists c s h, "prod/marketfeed/index/v1/999" = setter_topic c +:+ s /\
                 topic_handler st !! setter_topic c = Some (Some h) /\
                 trace st' = trace st ++ [Data h [] (first_piece s)]).
Proof.
  intros st.
  exact (message_delivered_on_registered_prefix_only
           "prod/marketfeed/index/v1/999" [] st
           (reach_step _ _ reach_initial (step_register Feed (Some 1%nat) initial))).
Defined.

(** ** Connect: the identity check, the transport call, escaping exceptions *)

(** A token the identity service rejects, or a check that fails, ends
    [connect_host] with status 1 and the message of the service (or the
    text of the failure, also reported to the error callback), whether or
    not the client is connected; the transport is not called. *)
Theorem rejected_token_stops_connect
    (w : World) (st : Connect) (o : list (string * json)) (token : json) :
  dict_get "token" o = Some token ->
  (forall msg, w_validate w (w_user_name w token) token = Rejected msg ->
     connect_host w (ReqJson (JObj o)) st = (inr (mkConnectionResponse 1 msg), st)) /\
  (forall ex, w_validate w (w_user_name w token) token = ValidationFailed ex ->
     connect_host w (ReqJson (JObj o)) st =
       (inr (mkConnectionResponse 1 (str_of_exn ex)), reported (str_of_exn ex) st)).
Proof.
  intros Htok. split.
  - intros msg Hval.
    unfold connect_host, connect_body, __validate_Token, subscript.
    rewrite Htok. run. rewrite Hval. reflexivity.
  - intros ex Hval.
    unfold connect_host, connect_body, __validate_Token, subscript, reported.
    rewrite Htok. run. rewrite Hval. destruct (on_error st); reflexivity.
Qed.

Lemma rejected_token_stops_connect_witness :
  connect_host rejecting_world
    (connection_request "bridge.iiflcapital.com" 9906 "token") initial =
    (inr (mkConnectionResponse 1 "Token expired"), initial).
Proof.
  exact (proj1 (rejected_token_stops_connect rejecting_world initial
                  [("host", JStr "bridge.iiflcapital.com"); ("port", JNum 9906);
                   ("token", JStr "token")] (JStr "token") eq_refl)
           "Token expired" eq_refl).
Defined.

(** A connect request with a string token that passes the identity
    check, with host and port, on a client that is not connected: the
    credentials are set to the user name and ["OPENID~~<token>~"], the
    transport connect call is issued with the host and port of the
    request, the delivery loop is started exactly when the call returns
    0, and the response carries the status of the call and its text. *)
Theorem connect_submits_credentials
    (w : World) (st : Connect) (o : list (string * json))
    (t msg : string) (host port : json) (rc : Z) :
  dict_get "token" o = Some (JStr t) ->
  dict_get "host" o = Some host ->
  dict_get "port" o = Some port ->
  w_validate w (w_user_name w (JStr t)) (JStr t) = Accepted msg ->
  w_is_connected w <> inr true ->
  w_connect w host port = inr rc ->
  w_loop_start w = inr tt ->
  connect_host w (ReqJson (JObj o)) st =
    (inr (mkConnectionResponse rc (w_error_string w rc)),
     add_events
       ([Call (MqttUsernamePw (w_user_name w (JStr t)) ("OPENID~~" +:+ t +:+ "~"));
         Call (MqttConnect host port)]
        ++ (if rc =? 0 then [Call MqttLoopStart] else []))
       (after_connection_query w st)).
Proof.
  intros Htok Hhost Hport Hval Hconn Hrc Hloop.
  unfold connect_host, connect_body, __validate_Token, is_host_connected,
    subscript, openid_password, after_connection_query, reported.
  rewrite Htok, Hhost, Hport. run. rewrite Hval. cbn [fst snd negb]. run.
  destruct (w_is_connected w) as [ex | [ | ]];
    [ destruct (on_error st) | congruence | ];
    cbn [fst snd negb]; run; rewrite Hrc; cbn [fst snd]; run;
    destruct (rc =? 0); run; rewrite ?Hloop; reflexivity.
Qed.

Lemma connect_submits_credentials_witness :
  connect_host calm_world
    (connection_request "bridge.iiflcapital.com" 9906 "token") initial =
    (inr (mkConnectionResponse 0 "No error."),
     add_events
       [Call (MqttUsernamePw "tester" "OPENID~~token~");
        Call (MqttConnect (JStr "bridge.iiflcapital.com") (JNum 9906));
        Call MqttLoopStart] initial).
Proof.
  refine (connect_submits_credentials calm_world initial
            [("host", JStr "bridge.iiflcapital.com"); ("port", JNum 9906);
             ("token", JStr "token")]
            "token" "Token is valid" (JStr "bridge.iiflcapital.com") (JNum 9906) 0
            eq_refl eq_refl eq_refl eq_refl _ eq_refl eq_refl).
  discriminate.
Defined.

(** [connect_host] lets an exception out exactly when its body raises an
    exception that has no [errno] attribute, or one with [errno] 11001
    while no error callback is registered; the error callback is then not
    notified, and the instance is the one the body left. *)
Theorem connect_raises_exactly_when
    (w : World) (req : request) (st : Connect) :
  ((exists e, fst (connect_host w req st) = inl e) <->
   (exists ex st1, connect_body w req st = (inl ex, st1) /\ escapes ex st1)) /\
  (forall ex st1, connect_body w req st = (inl ex, st1) -> escapes ex st1 ->
     snd (connect_host w req st) = st1).
Proof.
  unfold connect_host, try_except.
  destruct (connect_body w req st) as [[ex | r] st1].
  - assert (Hcases :
      (escapes ex st1 /\ (exists e, connect_handler ex st1 = (inl e, st1))) \/
      (~ escapes ex st1 /\ exists r s, connect_handler ex st1 = (inr r, s))).
    { destruct ex as [msg | k | [n |] msg | cls msg]; cbn [escapes connect_handler].
      - right. split; [ tauto | ]. run. destruct (on_error st1); eauto.
      - right. split; [ tauto | ]. run. destruct (on_error st1); eauto.
      - destruct (n =? 11001) eqn:Hn.
        + apply Z.eqb_eq in Hn. run. destruct (on_error st1) eqn:Herr.
          * right. split; [ intros [_ H]; discriminate H | eauto ].
          * left. split; [ auto | eauto ].
        + apply Z.eqb_neq in Hn. right. split; [ tauto | ].
          run. destruct (on_error st1); eauto.
      - right. split; [ tauto | ]. run. destruct (on_error st1); eauto.
      - left. split; [ exact I | eauto ]. }
    destruct Hcases as [[Hesc [e He]] | [Hno [r [s Hr]]]].
    + rewrite He. split.
      * split; [ intros _; exists ex, st1; auto | intros _; exists e; reflexivity ].
      * intros ex' st1' Heq _. injection Heq as _ <-. reflexivity.
    + rewrite Hr. split.
      * split; [ intros [e He]; discriminate He | ].
        intros [ex' [st1' [Heq Hesc]]]. injection Heq as <- <-. contradiction.
      * intros ex' st1' Heq Hesc. injection Heq as <- <-. contradiction.
  - split.
    + split; [ intros [e He]; discriminate He | ].
      intros [ex' [st1' [Heq _]]]. discriminate Heq.
    + intros ex' st1' Heq. discriminate Heq.
Qed.

Lemma connect_raises_exactly_when_witness :
  snd (connect_host refusing_world (connection_request "" 9906 "token") initial) =
    add_events [Call (MqttUsernamePw "tester" "OPENID~~token~");
                Call (MqttConnect (JStr "") (JNum 9906))] initial.
Proof.
  exact (proj2 (connect_raises_exactly_when refusing_world
                  (connection_request "" 9906 "token") initial)
           (OtherError "ValueError" "Invalid host.") _ eq_refl I).
Defined.

(** ** Subscribe on any request *)

Lemma calls_of_event (ev : event) (st : Connect) :
  calls_of (trace (add_event ev st)) =
    calls_of (trace st) ++ match ev with Call c => [c] | _ => [] end.
Proof. cbn [add_event trace]. rewrite calls_of_app. destruct ev; reflexivity. Qed.

Lemma calls_of_after_report (msg : string) (st : Connect) :
  calls_of (trace (reported msg st)) = calls_of (trace st).
Proof.
  unfold reported. destruct (on_error st); [ | reflexivity ].
  rewrite calls_of_event. apply app_nil_r.
Qed.

(** A handler around a bind: the handler takes what the first part
    raises and stays around the rest. *)
Lemma try_except_bind {A B : Type} (m : M A) (k : A -> M B) (h : exn -> M B)
    (st : Connect) :
  try_except (bind m k) h st =
    match m st with
    | (inl ex, s) => h ex s
    | (inr a, s) => try_except (k a) h s
    end.
Proof. unfold try_except, bind. destruct (m st) as [[ex | a] s]; reflexivity. Qed.

(** The part of subscribe after the topics are built, by what the
    transport answers. *)
Lemma submit_subscribe_cases (w : World) (v : list (string * Z))
    (fl : list SubscribeResult) (st st1 : Connect) :
  Forall wf_topic v ->
  calls_of (trace st1) = calls_of (trace st) ->
  subscriptions st1 = subscriptions st ->
  let out := try_except (submit_subscribe w v fl) feed_handler st1 in
  (exists r s, out = (inr r, s) /\ status r <> 0 /\
               calls_of (trace s) = calls_of (trace st) /\
               subscriptions s = subscriptions st) \/
  (exists topics r s,
     topics <> [] /\ Forall wf_topic topics /\ out = (inr r, s) /\
     calls_of (trace s) = calls_of (trace st) ++ [MqttSubscribe topics] /\
     ((exists ex, w_subscribe w topics = inl ex /\ status r = -1 /\
                  subscriptions s = subscriptions st) \/
      (exists rc mid, w_subscribe w topics = inr (rc, mid) /\ status r = rc /\
                      subscriptions s =
                        if rc =? 0 then <[mid := topics]> (subscriptions st)
                        else subscriptions st))).
Proof.
  intros Hwf Hcalls Hsubs out. unfold out, submit_subscribe.
  destruct v as [| t ts]; cbn [is_nil].
  - left. eexists _, _. split; [ reflexivity | ].
    split; [ discriminate | ]. split; assumption.
  - right. exists (t :: ts). run.
    destruct (w_subscribe w (t :: ts)) as [ex | [rc mid]] eqn:Hres; cbn [fst snd].
    + exists (mkSubscribeFeedResponse (-1) (Some (report_text ex)) []),
        (reported (report_text ex) (add_event (Call (MqttSubscribe (t :: ts))) st1)).
      split; [ discriminate | ]. split; [ exact Hwf | ].
      split; [ unfold reported; cbn [add_event on_error];
               destruct (on_error st1); reflexivity | ].
      split.
      * rewrite calls_of_after_report, calls_of_event, Hcalls. reflexivity.
      * left. exists ex. split; [ reflexivity | ]. split; [ reflexivity | ].
        unfold reported. cbn [add_event on_error].
        destruct (on_error st1); exact Hsubs.
    + destruct (rc =? 0) eqn:Hrc; eexists _, _;
        (split; [ discriminate | ]); (split; [ exact Hwf | ]);
        (split; [ reflexivity | ]).
      * split.
        -- cbn [with_subscriptions trace]. rewrite calls_of_event, Hcalls. reflexivity.
        -- right. exists rc, mid. split; [ reflexivity | ].
           split; [ reflexivity | ]. rewrite Hrc.
           cbn [with_subscriptions add_event subscriptions]. rewrite Hsubs. reflexivity.
      * split.
        -- rewrite calls_of_event, Hcalls. reflexivity.
        -- right. exists rc, mid. split; [ reflexivity | ].
           split; [ reflexivity | ]. rewrite Hrc. exact Hsubs.
Qed.

(** Every way a subscribe call of a category can end, for any request. *)
Lemma subscribe_cases (w : World) (c : Category) (req : request) (st : Connect) :
  let out := subscribe w c req st in
  (exists r s, out = (inr r, s) /\ status r <> 0 /\
               calls_of (trace s) = calls_of (trace st) /\
               subscriptions s = subscriptions st) \/
  (exists topics r s,
     topics <> [] /\ Forall wf_topic topics /\ out = (inr r, s) /\
     calls_of (trace s) = calls_of (trace st) ++ [MqttSubscribe topics] /\
     ((exists ex, w_subscribe w topics = inl ex /\ status r = -1 /\
                  subscriptions s = subscriptions st) \/
      (exists rc mid, w_subscribe w topics = inr (rc, mid) /\ status r = rc /\
                      subscriptions s =
                        if rc =? 0 then <[mid := topics]> (subscriptions st)
                        else subscriptions st))).
Proof.
  intros out. unfold out, subscribe, __subscribe. clear out.
  assert (Hearly : forall ex,
    exists r s, feed_handler ex st = (inr r, s) /\ status r <> 0 /\
                calls_of (trace s) = calls_of (trace st) /\
                subscriptions s = subscriptions st).
  { intros ex. rewrite feed_handler_run. eexists _, _.
    split; [ reflexivity | ]. split; [ discriminate | ].
    split; [ apply calls_of_after_report | ].
    unfold reported. destruct (on_error st); reflexivity. }
  set (whole := try_except (subscribe_body w req (prefix_of c)) feed_handler st).
  pattern whole.
  match goal with |- ?Q whole => set (P := Q) end.
  unfold whole, subscribe_body. clear whole.
  destruct req as [ | msg | req_data ].
  - subst P. left. eexists _, _. split; [ reflexivity | ].
    split; [ discriminate | ]. split; reflexivity.
  - subst P. left. apply (Hearly (JSONDecodeError msg)).
  - rewrite try_except_bind. unfold lift at 1.
    destruct (subscript req_data "subscriptionList") as [ex | lst];
      [ subst P; left; apply Hearly | ].
    rewrite try_except_bind. unfold lift at 1.
    destruct (within_bounds lst) as [ex | [ | ]];
      [ subst P; left; apply Hearly | | ].
    + rewrite try_except_bind.
      assert (Hbuilt : exists v fl st1,
                _build_subscription_topics lst (prefix_of c) st = (inr (v, fl), st1) /\
                Forall wf_topic v /\
                calls_of (trace st1) = calls_of (trace st) /\
                subscriptions st1 = subscriptions st).
      { unfold _build_subscription_topics.
        assert (Hnil : Forall wf_topic []) by constructor.
        destruct (py_iter lst) as [ex | items].
        - exists [], [], (reported (str_of_exn ex) st). unfold bind.
          rewrite reported_run. split; [ reflexivity | ]. split; [ exact Hnil | ].
          split; [ apply calls_of_after_report | ].
          unfold reported. destruct (on_error st); reflexivity.
        - pose proof (subscription_loop_wf c items [] [] Hnil) as Hwf.
          destruct (subscription_loop (prefix_of c) items [] []) as [[oex v] fl].
          cbn [fst snd] in Hwf. destruct oex as [ex | ].
          + exists v, fl, (reported (str_of_exn ex) st). unfold bind.
            rewrite reported_run. split; [ reflexivity | ].
            split; [ exact Hwf | ]. split; [ apply calls_of_after_report | ].
            unfold reported. destruct (on_error st); reflexivity.
          + exists v, fl, st. repeat split; try reflexivity. exact Hwf. }
      destruct Hbuilt as [v [fl [st1 [Hb [Hwf [Hcalls Hsubs]]]]]].
      rewrite Hb. cbn [fst snd]. subst P.
      exact (submit_subscribe_cases w v fl st st1 Hwf Hcalls Hsubs).
    + subst P. left. eexists _, _. split; [ reflexivity | ].
      split; [ discriminate | ]. split; reflexivity.
Qed.

(** Whatever the request, a subscribe call of a category hands the
    transport at most one batch, and every topic of that batch is a
    category prefix followed by a suffix that passes validation, with QoS
    0. A response with status 0 means that such a batch went out, that the
    transport returned 0 for it, and that the batch is in the pending
    table under the id the transport returned. *)
Theorem transport_sees_valid_topics_only
    (w : World) (c : Category) (req : request) (st : Connect) :
  let out := subscribe w c req st in
  (calls_of (trace (snd out)) = calls_of (trace st) \/
   exists topics, topics <> [] /\ Forall wf_topic topics /\
     calls_of (trace (snd out)) = calls_of (trace st) ++ [MqttSubscribe topics]) /\
  (forall r, fst out = inr r -> status r = 0 ->
     exists topics mid,
       topics <> [] /\ w_subscribe w topics = inr (0, mid) /\
       calls_of (trace (snd out)) = calls_of (trace st) ++ [MqttSubscribe topics] /\
       subscriptions (snd out) = <[mid := topics]> (subscriptions st)).
Proof.
  intros out. unfold out.
  destruct (subscribe_cases w c req st)
    as [[r [s [-> [Hst [Hcalls Hsubs]]]]]
       | [topics [r [s [Hne [Hwf [-> [Hcalls Hres]]]]]]]]; cbn [fst snd].
  - split; [ left; exact Hcalls | ].
    intros r' Hr Hzero. injection Hr as <-. contradiction.
  - split; [ right; exists topics; auto | ].
    intros r' Hr Hzero. injection Hr as <-.
    destruct Hres as [[ex [_ [Hm _]]] | [rc [mid [Hw [Hrc Hsubs]]]]].
    + rewrite Hzero in Hm. discriminate Hm.
    + rewrite Hzero in Hrc. subst rc. exists topics, mid.
      split; [ exact Hne | ]. split; [ exact Hw | ]. split; [ exact Hcalls | ].
      exact Hsubs.
Qed.

Lemma transport_sees_valid_topics_only_witness :
  let out := subscribe calm_world Feed
               (subscription_request ["nseeq/2285"; "NSE"]) initial in
  exists topics mid,
    topics <> [] /\ w_subscribe calm_world topics = inr (0, mid) /\
    calls_of (trace (snd out)) = calls_of (trace initial) ++ [MqttSubscribe topics] /\
    subscriptions (snd out) = <[mid := topics]> (subscriptions initial).
Proof.
  intros out.
  exact (proj2 (transport_sees_valid_topics_only calm_world Feed
                  (subscription_request ["nseeq/2285"; "NSE"]) initial)
           (mkSubscribeFeedResponse 0 (Some "Subscription partially sent")
              [mkSubscribeResult 104 "Invalid topic" "NSE"])
           eq_refl eq_refl).
Defined.

(** ** Subscribe: the response, and odd requests *)

(** A subscribe batch of 1 to 1024 strings with at least one valid suffix,
    for which the transport returns the status [rc] and the id [mid]: the
    response has status [rc] and lists the invalid suffixes; its message
    is "Subscription partially sent" when [rc] is 0 and some suffix was
    invalid, the transport's text for [rc] otherwise; and the batch is
    recorded under [mid] exactly when [rc] is 0. *)
Theorem subscribe_response_on_batch
    (w : World) (p : string) (st : Connect) (o : list (string * json))
    (l : list string) (rc mid : Z) :
  dict_get "subscriptionList" o = Some (JArr (map JStr l)) ->
  (1 <= length l <= 1024)%nat ->
  List.filter validate l <> [] ->
  let topics := map (prefixed p) (List.filter validate l) in
  let failed := map invalid_topic (List.filter invalid l) in
  w_subscribe w topics = inr (rc, mid) ->
  __subscribe w (ReqJson (JObj o)) p st =
    (inr (mkSubscribeFeedResponse rc
            (Some (if (rc =? 0) && negb (is_nil failed)
                   then "Subscription partially sent"
                   else w_error_string w rc))
            failed),
     if rc =? 0
     then with_subscriptions (<[mid := topics]> (subscriptions st))
            (add_event (Call (MqttSubscribe topics)) st)
     else add_event (Call (MqttSubscribe topics)) st).
Proof.
  intros Hget Hlen Hsome topics failed Hres. unfold __subscribe, try_except.
  rewrite (subscribe_body_strings w p o l st Hget Hlen).
  fold topics failed. unfold submit_subscribe.
  destruct topics as [| t ts] eqn:Ht.
  - unfold topics in Ht. apply map_eq_nil in Ht. contradiction.
  - cbn [is_nil]. run. rewrite Hres. cbn [fst snd].
    destruct (rc =? 0); destruct (is_nil failed); reflexivity.
Qed.

Lemma subscribe_response_on_batch_witness :
  __subscribe calm_world (subscription_request ["nseeq/2285"; "bsefo/1113375"])
    mw_topic initial =
    (inr (mkSubscribeFeedResponse 0 (Some "No error.") []),
     with_subscriptions
       (<[7 := [("prod/marketfeed/mw/v1/nseeq/2285", 0);
                ("prod/marketfeed/mw/v1/bsefo/1113375", 0)]]> ∅)
       (add_event
          (Call (MqttSubscribe [("prod/marketfeed/mw/v1/nseeq/2285", 0);
                                ("prod/marketfeed/mw/v1/bsefo/1113375", 0)]))
          initial)).
Proof.
  assert (Hlen : (1 <= length ["nseeq/2285"; "bsefo/1113375"] <= 1024)%nat)
    by (cbn [length]; lia).
  assert (Hsome : List.filter validate ["nseeq/2285"; "bsefo/1113375"] <> [])
    by discriminate.
  exact (subscribe_response_on_batch calm_world mw_topic initial
           [("subscriptionList", JArr (map JStr ["nseeq/2285"; "bsefo/1113375"]))]
           ["nseeq/2285"; "bsefo/1113375"] 0 7 eq_refl Hlen Hsome eq_refl).
Defined.

(** A request whose topic list is empty, null, zero, false or an empty
    string gets status 102, the status of a list that is too long, from
    subscribe and unsubscribe alike, and nothing else happens. *)
Theorem empty_topic_list_out_of_bounds
    (w : World) (p : string) (st : Connect)
    (o_sub o_unsub : list (string * json)) (lst_sub lst_unsub : json) :
  dict_get "subscriptionList" o_sub = Some lst_sub ->
  truthy lst_sub = false ->
  dict_get "unsubscriptionList" o_unsub = Some lst_unsub ->
  truthy lst_unsub = false ->
  __subscribe w (ReqJson (JObj o_sub)) p st =
    (inr (mkSubscribeFeedResponse 102 (Some bounds_message) []), st) /\
  __unsubscribe w (ReqJson (JObj o_unsub)) p st =
    (inr (mkSubscribeFeedResponse 102 (Some bounds_message) []), st).
Proof.
  intros Hs Hfs Hu Hfu. split.
  - unfold __subscribe, try_except, subscribe_body, bind, lift, subscript,
      within_bounds. rewrite Hs, Hfs. reflexivity.
  - unfold __unsubscribe, try_except, unsubscribe_body, bind, lift, subscript,
      within_bounds. rewrite Hu, Hfu. reflexivity.
Qed.

Lemma empty_topic_list_out_of_bounds_witness :
  __subscribe calm_world (subscription_request []) mw_topic initial =
    (inr (mkSubscribeFeedResponse 102 (Some bounds_message) []), initial) /\
  __unsubscribe calm_world (ReqJson (JObj [("unsubscriptionList", JNull)]))
    mw_topic initial =
    (inr (mkSubscribeFeedResponse 102 (Some bounds_message) []), initial).
Proof.
  exact (empty_topic_list_out_of_bounds calm_world mw_topic initial
           [("subscriptionList", JArr [])] [("unsubscriptionList", JNull)]
           (JArr []) JNull eq_refl eq_refl eq_refl eq_refl).
Defined.

(** A request object without the list key, and a request that is valid
    JSON but not an object, get status -1 from subscribe and unsubscribe:
    the first with the text that names the missing key, the second with
    the text of the [TypeError]; the text is reported to the error
    callback and the transport is not called. *)
Theorem request_without_topic_list
    (w : World) (p : string) (st : Connect) (o : list (string * json))
    (j : json) :
  (dict_get "subscriptionList" o = None ->
   __subscribe w (ReqJson (JObj o)) p st =
     (inr (mkSubscribeFeedResponse (-1)
             (Some "The parameter 'subscriptionList' should not be empty") []),
      reported "The parameter 'subscriptionList' should not be empty" st)) /\
  (dict_get "unsubscriptionList" o = None ->
   __unsubscribe w (ReqJson (JObj o)) p st =
     (inr (mkSubscribeFeedResponse (-1)
             (Some "The parameter 'unsubscriptionList' should not be empty") []),
      reported "The parameter 'unsubscriptionList' should not be empty" st)) /\
  ((forall o', j <> JObj o') ->
   exists msg,
     __subscribe w (ReqJson j) p st =
       (inr (mkSubscribeFeedResponse (-1) (Some msg) []), reported msg st) /\
     __unsubscribe w (ReqJson j) p st =
       (inr (mkSubscribeFeedResponse (-1) (Some msg) []), reported msg st)).
Proof.
  split; [ | split ].
  - intros Hnone. unfold __subscribe, subscribe_body.
    rewrite try_except_bind. unfold lift, subscript. rewrite Hnone.
    apply feed_handler_run.
  - intros Hnone. unfold __unsubscribe, unsubscribe_body.
    rewrite try_except_bind. unfold lift, subscript. rewrite Hnone.
    apply feed_handler_run.
  - intros Hj. unfold __subscribe, __unsubscribe, subscribe_body, unsubscribe_body.
    rewrite !try_except_bind. unfold lift, subscript.
    destruct j as [ | b | z | s | l | o' ];
      try (eexists; split; apply feed_handler_run).
    contradiction (Hj o'). reflexivity.
Qed.

Lemma request_without_topic_list_witness :
  __subscribe calm_world (ReqJson (JObj [("topics", JArr [JStr "nseeq/2285"])]))
    mw_topic initial =
    (inr (mkSubscribeFeedResponse (-1)
            (Some "The parameter 'subscriptionList' should not be empty") []),
     initial).
Proof.
  exact (proj1 (request_without_topic_list calm_world mw_topic initial
                  [("topics", JArr [JStr "nseeq/2285"])] JNull) eq_refl).
Defined.

Lemma subscription_loop_app (p : string) (l1 : list string) (rest : list json) :
  forall valid_topics failed,
    subscription_loop p (map JStr l1 ++ rest) valid_topics failed =
    subscription_loop p rest
      (valid_topics ++ map (prefixed p) (List.filter validate l1))
      (failed ++ map invalid_topic (List.filter invalid l1)).
Proof.
  induction l1 as [| s l1 IH]; intros v f; cbn [map app subscription_loop List.filter].
  - rewrite !app_nil_r. reflexivity.
  - unfold invalid at 1. destruct (validate s); cbn [negb map]; rewrite IH;
      rewrite <- app_assoc; reflexivity.
Qed.

Lemma unsubscribe_loop_app (p : string) (l1 : list string) (rest : list json) :
  forall valid_topics failed,
    unsubscribe_loop p (map JStr l1 ++ rest) valid_topics failed =
    unsubscribe_loop p rest
      (valid_topics ++ map (String.append p) (List.filter validate l1))
      (failed ++ map invalid_topic (List.filter invalid l1)).
Proof.
  induction l1 as [| s l1 IH]; intros v f; cbn [map app unsubscribe_loop List.filter].
  - rewrite !app_nil_r. reflexivity.
  - unfold invalid at 1. destruct (validate s); cbn [negb map]; rewrite IH;
      rewrite <- app_assoc; reflexivity.
Qed.

(** The first entry of a topic list that is not a string ends the
    validation loop: the builders return what the strings before it gave,
    report the [TypeError] of that entry to the error callback, and the
    entries after it are neither submitted nor listed as failed. *)
Theorem non_string_entry_ends_validation
    (p : string) (st : Connect) (l1 : list string) (x : json) (rest : list json) :
  not_a_string x ->
  _build_subscription_topics (JArr (map JStr l1 ++ x :: rest)) p st =
    (inr (map (prefixed p) (List.filter validate l1),
          map invalid_topic (List.filter invalid l1)),
     reported ("expected string or bytes-like object, got '"
               +:+ type_name x +:+ "'") st) /\
  _build_unsubscribe_options (JArr (map JStr l1 ++ x :: rest)) p st =
    (inr (map (String.append p) (List.filter validate l1),
          map invalid_topic (List.filter invalid l1)),
     reported ("expected string or bytes-like object, got '"
               +:+ type_name x +:+ "'") st).
Proof.
  intros Hx.
  unfold _build_subscription_topics, _build_unsubscribe_options, py_iter.
  rewrite subscription_loop_app, unsubscribe_loop_app.
  destruct x as [ | b | z | s | l | o ]; try contradiction;
    cbn [subscription_loop unsubscribe_loop app]; unfold bind;
    rewrite !reported_run; split; reflexivity.
Qed.

Lemma non_string_entry_ends_validation_witness :
  _build_subscription_topics
    (JArr [JStr "nseeq/2285"; JNum 5; JStr "bsefo/1113375"; JStr "NSE"])
    mw_topic initial =
    (inr ([("prod/marketfeed/mw/v1/nseeq/2285", 0)], []), initial).
Proof.
  exact (proj1 (non_string_entry_ends_validation mw_topic initial ["nseeq/2285"]
                  (JNum 5) [JStr "bsefo/1113375"; JStr "NSE"] I)).
Defined.

Lemma characters_length (s : string) : length (characters s) = String.length s.
Proof.
  unfold characters. rewrite length_map.
  induction s as [| ch s IH]; [ reflexivity | ].
  cbn [list_ascii_of_string length String.length]. rewrite IH. reflexivity.
Qed.

Lemma code_points_from_ascii (s cur : string) :
  ascii_only s -> code_points_from cur s = cur :: characters s.
Proof.
  unfold ascii_only, characters. revert cur.
  induction s as [| ch s IH]; intros cur Hs; [ reflexivity | ].
  cbn [list_ascii_of_string] in Hs. inversion Hs as [| ch' tl Hch Htl]; subst.
  cbn [code_points_from list_ascii_of_string map].
  assert (Hc : is_continuation ch = false).
  { unfold is_continuation. apply andb_false_iff. left. apply N.leb_gt. exact Hch. }
  rewrite Hc, (IH _ Htl). reflexivity.
Qed.

Lemma code_points_ascii (s : string) : ascii_only s -> code_points s = characters s.
Proof.
  intros Hs. destruct s as [| ch s]; [ reflexivity | ].
  unfold ascii_only in Hs. cbn [list_ascii_of_string] in Hs.
  inversion Hs as [| ch' tl Hch Htl]; subst.
  cbn [code_points]. rewrite (code_points_from_ascii s _ Htl). reflexivity.
Qed.

(** A topic list given as one ASCII string is taken character by
    character: the call does what it does for the list of the
    one-character strings of that string. *)
Theorem string_topic_list_split_in_characters
    (w : World) (p : string) (st : Connect) (o : list (string * json))
    (s : string) :
  dict_get "subscriptionList" o = Some (JStr s) ->
  ascii_only s ->
  (1 <= String.length s <= 1024)%nat ->
  __subscribe w (ReqJson (JObj o)) p st =
  __subscribe w (subscription_request (characters s)) p st.
Proof.
  intros Hget Hascii Hlen. unfold __subscribe, try_except, subscription_request.
  rewrite (subscribe_body_strings w p
             [("subscriptionList", JArr (map JStr (characters s)))]
             (characters s) st eq_refl)
    by (rewrite characters_length; exact Hlen).
  unfold subscribe_body, bind, lift, subscript. rewrite Hget.
  assert (Hb : within_bounds (JStr s) = inr true).
  { unfold within_bounds, truthy, py_len.
    rewrite (code_points_ascii s Hascii), characters_length.
    destruct s as [| ch s]; [ cbn in Hlen; lia | ].
    cbn [String.eqb negb]. f_equal. apply Z.leb_le. lia. }
  rewrite Hb. unfold _build_subscription_topics, py_iter.
  rewrite (code_points_ascii s Hascii).
  rewrite subscription_loop_strings. reflexivity.
Qed.

Lemma string_topic_list_split_in_characters_witness :
  calls_of (trace (snd (__subscribe calm_world
                          (ReqJson (JObj [("subscriptionList", JStr "a/B")]))
                          mw_topic initial))) =
    [MqttSubscribe [("prod/marketfeed/mw/v1/a", 0); ("prod/marketfeed/mw/v1//", 0)]].
Proof.
  assert (Hlen : (1 <= String.length "a/B" <= 1024)%nat) by (cbn; lia).
  assert (Hascii : ascii_only "a/B") by (repeat constructor).
  rewrite (string_topic_list_split_in_characters calm_world mw_topic initial
             [("subscriptionList", JStr "a/B")] "a/B" eq_refl Hascii Hlen).
  reflexivity.
Defined.

(** ** Unsubscribe *)

(** An unsubscribe batch of 1 to 1024 strings. With no valid suffix the
    response has status 103 and lists every suffix as failed, and the
    transport is not called. Otherwise the transport gets one call with
    the valid suffixes, prefixed, in submission order; if it returns the
    status [rc], the response has status [rc] and lists the invalid
    suffixes, with the message "Unsubscripton partially sent" when [rc]
    is 0 and some suffix was invalid; if it raises, the response is the
    status -1 result with no failed topics. *)
Theorem unsubscribe_on_batch
    (w : World) (p : string) (st : Connect) (o : list (string * json))
    (l : list string) :
  dict_get "unsubscriptionList" o = Some (JArr (map JStr l)) ->
  (1 <= length l <= 1024)%nat ->
  let topics := map (String.append p) (List.filter validate l) in
  let failed := map invalid_topic (List.filter invalid l) in
  let out := __unsubscribe w (ReqJson (JObj o)) p st in
  (topics = [] ->
   out = (inr (mkSubscribeFeedResponse 103 (Some "Unsubscription failed") failed), st)) /\
  (forall rc mid, topics <> [] -> w_unsubscribe w topics = inr (rc, mid) ->
   out = (inr (mkSubscribeFeedResponse rc
                 (Some (if (rc =? 0) && negb (is_nil failed)
                        then "Unsubscripton partially sent"
                        else w_error_string w rc))
                 failed),
          add_event (Call (MqttUnsubscribe topics)) st)) /\
  (forall ex, topics <> [] -> w_unsubscribe w topics = inl ex ->
   out = (inr (mkSubscribeFeedResponse (-1) (Some (report_text ex)) []),
          reported (report_text ex) (add_event (Call (MqttUnsubscribe topics)) st))).
Proof.
  intros Hget Hlen topics failed out. unfold out, __unsubscribe, try_except.
  rewrite (unsubscribe_body_strings w p o l st Hget Hlen).
  fold topics failed. unfold submit_unsubscribe.
  split; [ | split ].
  - intros ->. reflexivity.
  - intros rc mid Hne Hres. destruct topics as [| t ts]; [ congruence | ].
    cbn [is_nil]. run. rewrite Hres. cbn [fst snd].
    destruct (rc =? 0); destruct (is_nil failed); reflexivity.
  - intros ex Hne Hres. destruct topics as [| t ts]; [ congruence | ].
    cbn [is_nil]. run. rewrite Hres. unfold reported. cbn [add_event on_error].
    destruct (on_error st); reflexivity.
Qed.

Lemma unsubscribe_on_batch_witness :
  __unsubscribe calm_world (unsubscription_request ["nseeq/2285"; "nsefo/2885+"])
    lpp initial =
    (inr (mkSubscribeFeedResponse 0 (Some "Unsubscripton partially sent")
            [mkSubscribeResult 104 "Invalid topic" "nsefo/2885+"]),
     add_event (Call (MqttUnsubscribe ["prod/marketfeed/lpp/v1/nseeq/2285"])) initial).
Proof.
  assert (Hlen : (1 <= length ["nseeq/2285"; "nsefo/2885+"] <= 1024)%nat)
    by (cbn [length]; lia).
  refine (proj1 (proj2 (unsubscribe_on_batch calm_world lpp initial
                          [("unsubscriptionList",
                            JArr (map JStr ["nseeq/2285"; "nsefo/2885+"]))]
                          ["nseeq/2285"; "nsefo/2885+"] eq_refl Hlen))
            0 8 _ eq_refl).
  discriminate.
Defined.

(** ** Disconnect *)

(** [disconnect_host] always issues the transport disconnect call. When
    that call returns, with whatever status, the delivery loop is stopped
    and the response carries the status and its text. When the call
    raises, the loop is not stopped, and the response is the status -1
    result, reported to the error callback. The pending table and the
    registered handlers are as before in both cases. *)
Theorem disconnect_stops_loop_after_return (w : World) (st : Connect) :
  (forall rc, w_disconnect w = inr rc -> w_loop_stop w = inr tt ->
     disconnect_host w st =
       (inr (mkConnectionResponse rc (w_error_string w rc)),
        add_events [Call MqttDisconnect; Call MqttLoopStop] st)) /\
  (forall ex, w_disconnect w = inl ex ->
     disconnect_host w st =
       (inr (mkConnectionResponse (-1) (str_of_exn ex)),
        reported (str_of_exn ex) (add_event (Call MqttDisconnect) st))) /\
  subscriptions (snd (disconnect_host w st)) = subscriptions st /\
  topic_handler (snd (disconnect_host w st)) = topic_handler st.
Proof.
  split; [ | split; [ | split ] ].
  - intros rc Hrc Hstop. unfold disconnect_host, disconnect_body. run.
    rewrite Hrc. cbn [fst snd]. run. rewrite Hstop. reflexivity.
  - intros ex Hex. unfold disconnect_host, disconnect_body, reported. run.
    rewrite Hex. cbn [add_event on_error]. destruct (on_error st); reflexivity.
  - apply (keeps_disconnect_host subscriptions); reflexivity.
  - apply (keeps_disconnect_host topic_handler); reflexivity.
Qed.

Lemma disconnect_stops_loop_after_return_witness :
  disconnect_host calm_world initial =
    (inr (mkConnectionResponse 0 "No error."),
     add_events [Call MqttDisconnect; Call MqttLoopStop] initial) /\
  disconnect_host refusing_world initial =
    (inr (mkConnectionResponse (-1) "socket closed"),
     add_event (Call MqttDisconnect) initial).
Proof.
  split.
  - exact (proj1 (disconnect_stops_loop_after_return calm_world initial)
             0 eq_refl eq_refl).
  - exact (proj1 (proj2 (disconnect_stops_loop_after_return refusing_world initial))
             _ eq_refl).
Defined.

(** ** Acknowledgments of marker-free suffixes, and registrations in a row *)

Lemma ack_entries_marker_free (c : Category) (l : list string) :
  Forall (fun s => has_marker s = false) l ->
  forall rcl,
    map ack_entry (py_zip rcl (map (prefixed (prefix_of c)) l)) =
    map suffix_result (py_zip rcl l).
Proof.
  induction 1 as [| s l Hs Hl IH]; intros rcl.
  - destruct rcl; reflexivity.
  - destruct rcl as [| rc rcl]; [ reflexivity | ].
    cbn [map py_zip]. rewrite IH, (ack_entry_marker_free rc c s Hs). reflexivity.
Qed.

(** In a session, the acknowledgment of a pending request of category
    [c] whose suffixes are free of the marker, with at least one reason
    code, removes the entry and forwards one event to the acknowledgment
    callback: the reason codes paired with the submitted suffixes position
    by position, as many as the shorter of the two lists has, each granted
    exactly when its code is 0. *)
Theorem ack_pairs_codes_with_suffixes
    (st : Connect) (mid : Z) (c : Category) (l : list string)
    (rc0 : ReasonCode) (rcl : list ReasonCode) (h : handler) :
  reachable st ->
  subscriptions st !! mid = Some (map (prefixed (prefix_of c)) l) ->
  Forall (fun s => has_marker s = false) l ->
  on_acknowledge_response st = Some h ->
  let st' := snd (__on_subscribe mid (rc0 :: rcl) st) in
  trace st' =
    trace st ++ [Ack h (SubscribeAckResponse (rc_packetType rc0) "SUBACK"
                          (map suffix_result (py_zip (rc0 :: rcl) l)))] /\
  length (py_zip (rc0 :: rcl) l) = Nat.min (S (length rcl)) (length l) /\
  subscriptions st' = delete mid (subscriptions st).
Proof.
  intros Hreach Hl Hfree Hack st'. unfold st'.
  pose proof (reachable_pending_wf st Hreach) as Hwf.
  rewrite (on_subscribe_present st mid _ _ Hl (Hwf mid _ Hl)).
  unfold acked. cbn [snd on_acknowledge_response with_subscriptions].
  rewrite Hack, (ack_entries_marker_free c l Hfree).
  split; [ reflexivity | ].
  split; [ exact (py_zip_length (rc0 :: rcl) l) | reflexivity ].
Qed.

Lemma ack_pairs_codes_with_suffixes_witness :
  let st := snd (subscribe calm_world Feed
                   (subscription_request ["nseeq/2285"; "bsefo/1113375"])
                   (set_on_acknowledge_response (Some 5%nat) initial)) in
  trace (snd (__on_subscribe 7 [mkReasonCode 0 9 "Granted QoS 0";
                                mkReasonCode 128 9 "Unspecified error";
                                mkReasonCode 0 9 "Granted QoS 0"] st)) =
    trace st ++ [Ack 5%nat (SubscribeAckResponse 9 "SUBACK"
                              [mkSubscribeResult 0 "Granted" "nseeq/2285";
                               mkSubscribeResult 128 "Not Granted" "bsefo/1113375"])].
Proof.
  intros st.
  assert (Hreach : reachable st).
  { apply (reach_step (set_on_acknowledge_response (Some 5%nat) initial)).
    - exact (reach_step _ _ reach_initial (step_set_ack (Some 5%nat) initial)).
    - apply step_subscribe. }
  assert (Hin : subscriptions st !! 7 =
                Some (map (prefixed (prefix_of Feed)) ["nseeq/2285"; "bsefo/1113375"]))
    by (vm_compute; reflexivity).
  assert (Hfree : Forall (fun s => has_marker s = false) ["nseeq/2285"; "bsefo/1113375"])
    by (repeat constructor).
  exact (proj1 (ack_pairs_codes_with_suffixes st 7 Feed
                  ["nseeq/2285"; "bsefo/1113375"]
                  (mkReasonCode 0 9 "Granted QoS 0")
                  [mkReasonCode 128 9 "Unspecified error";
                   mkReasonCode 0 9 "Granted QoS 0"] 5%nat Hreach Hin Hfree eq_refl)).
Defined.

Lemma apply_registrations_trace (regs : list (Category * option handler))
    (st : Connect) :
  trace (apply_registrations regs st) = trace st.
Proof.
  revert st. induction regs as [| r regs IH]; intros st; [ reflexivity | ].
  cbn [apply_registrations fold_left].
  change (trace (apply_registrations regs (register (fst r) (snd r) st)) = trace st).
  rewrite IH. reflexivity.
Qed.

(** After any series of registrations that does not use the 52-week-low
    setter, a message on a topic of a category goes to the handler of the
    latest registration of that category, with the first piece of the
    suffix; it is dropped when the category was never registered or when
    its latest registration was [None]. *)
Theorem latest_registration_receives
    (regs : list (Category * option handler)) (c : Category) (s : string)
    (payload : list Byte.byte) :
  Forall (fun r => fst r <> Low52Week) regs ->
  trace (snd (__on_message (prefix_of c +:+ s) payload
                (apply_registrations regs initial))) =
    match last_registered c regs with
    | Some (Some h) => [Data h payload (first_piece s)]
    | _ => []
    end.
Proof.
  intros Hregs. rewrite on_message_dispatch.
  rewrite (registry_tracks_registrations regs c Hregs).
  destruct (last_registered c regs) as [[h |] |];
    cbn [snd add_event with_count trace];
    rewrite apply_registrations_trace; reflexivity.
Qed.

Lemma latest_registration_receives_witness :
  trace (snd (__on_message (prefix_of Index +:+ "nseeq/999908") []
                (apply_registrations
                   [(Index, Some 1%nat); (Feed, Some 2%nat); (Index, Some 3%nat)]
                   initial))) =
    [Data 3%nat [] "nseeq/999908"].
Proof.
  assert (Hregs : Forall (fun r : Category * option handler => fst r <> Low52Week)
                    [(Index, Some 1%nat); (Feed, Some 2%nat); (Index, Some 3%nat)])
    by (repeat constructor; discriminate).
  exact (latest_registration_receives
           [(Index, Some 1%nat); (Feed, Some 2%nat); (Index, Some 3%nat)]
           Index "nseeq/999908" [] Hregs).
Defined.

(** ** The identity check, inside *)

(** The identity check accepts a reply exactly when its status code is
    200 and its body decodes to an object whose ["result"] has the status
    ["Success"] and a message. A reply with another status code and a
    body that decodes always counts as a failure whose text is that of
    the [AttributeError] of [res.text], not the body; [connect_host] then
    answers with status 1 and that text, which it also reports to the
    error callback. *)
Theorem token_accepted_exactly_when
    (other : json -> string) (r : http_reply) (m : string)
    (w : World) (st : Connect) (o : list (string * json)) (token : json)
    (status_code : Z) (res : json) :
  (verdict other r = Accepted m <->
   exists res' result msg,
     r = PostReplied 200 (inr res') /\
     subscript res' "result" = inr result /\
     subscript result "status" = inr (JStr "Success") /\
     subscript result "message" = inr msg /\
     m = py_str other msg) /\
  (status_code <> 200 ->
   verdict other (PostReplied status_code (inr res)) =
     ValidationFailed
       (AttributeError ("'" +:+ type_name res +:+ "' object has no attribute 'text'"))) /\
  (status_code <> 200 ->
   dict_get "token" o = Some token ->
   w_validate w (w_user_name w token) token =
     verdict other (PostReplied status_code (inr res)) ->
   connect_host w (ReqJson (JObj o)) st =
     (inr (mkConnectionResponse 1
             ("'" +:+ type_name res +:+ "' object has no attribute 'text'")),
      reported ("'" +:+ type_name res +:+ "' object has no attribute 'text'") st)).
Proof.
  assert (Hnot200 : status_code <> 200 ->
            verdict other (PostReplied status_code (inr res)) =
              ValidationFailed
                (AttributeError ("'" +:+ type_name res
                                 +:+ "' object has no attribute 'text'"))).
  { intros Hcode. unfold verdict, validate_reply.
    apply Z.eqb_neq in Hcode. rewrite Hcode. reflexivity. }
  split; [ | split ].
  - unfold verdict, validate_reply. split.
    + intros Hacc.
      destruct r as [ex | code [ex | res']]; try discriminate Hacc.
      destruct (code =? 200) eqn:Hcode; [ | discriminate Hacc ].
      apply Z.eqb_eq in Hcode. subst code.
      destruct (subscript res' "result") as [ex | result] eqn:Hres;
        [ discriminate Hacc | ].
      destruct (subscript result "status") as [ex | sts] eqn:Hsts;
        [ discriminate Hacc | ].
      destruct (subscript result "message") as [ex | msg] eqn:Hmsg;
        [ discriminate Hacc | ].
      destruct (is_success sts) eqn:Hs; [ | discriminate Hacc ].
      injection Hacc as <-.
      destruct sts as [ | b | z | s | l | o' ]; try discriminate Hs.
      cbn [is_success] in Hs. apply String.eqb_eq in Hs. subst s.
      exists res', result, msg. auto.
    + intros [res' [result [msg [-> [Hres [Hsts [Hmsg ->]]]]]]].
      cbn [Z.eqb Pos.eqb]. rewrite Hres, Hsts, Hmsg. reflexivity.
  - exact Hnot200.
  - intros Hcode Htok Hval. rewrite (Hnot200 Hcode) in Hval.
    unfold connect_host, connect_body, __validate_Token, subscript, reported.
    rewrite Htok. run. rewrite Hval. cbn [str_of_exn AttributeError].
    destruct (on_error st); reflexivity.
Qed.

Lemma token_accepted_exactly_when_witness :
  verdict (fun _ => "")
    (PostReplied 401
       (inr (JObj [("result", JObj [("status", JStr "Success");
                                    ("message", JStr "ok")])]))) =
    ValidationFailed (AttributeError "'dict' object has no attribute 'text'").
Proof.
  refine (proj1 (proj2 (token_accepted_exactly_when (fun _ => "") (PostRaised (KeyError (KInt 0)))
                          "" calm_world initial [] JNull 401
                          (JObj [("result", JObj [("status", JStr "Success");
                                                  ("message", JStr "ok")])]))) _).
  discriminate.
Defined.

(** ** The user name of a token *)

Lemma length_append (a b : string) :
  String.length (a +:+ b) = (String.length a + String.length b)%nat.
Proof.
  induction a as [| ch a IH]; [ reflexivity | ].
  change (S (String.length (a +:+ b)) = S (String.length a + String.length b)).
  rewrite IH. reflexivity.
Qed.

Lemma length_equals_signs (n : nat) : String.length (equals_signs n) = n.
Proof. induction n as [| n IH]; [ reflexivity | ]. cbn. rewrite IH. reflexivity. Qed.

(** The padding of the payload of a token brings its length to the next
    multiple of four with fewer than four ["="] characters, and adds
    nothing to a payload whose length is a multiple of four already. *)
Theorem padded_payload_length (payload : string) :
  (String.length (pad_payload payload) mod 4 = 0)%nat /\
  (String.length payload <= String.length (pad_payload payload)
   < String.length payload + 4)%nat /\
  ((String.length payload mod 4 = 0)%nat -> pad_payload payload = payload).
Proof.
  unfold pad_payload.
  set (n := String.length payload).
  assert (Hr : (n mod 4 < 4)%nat) by (apply Nat.mod_upper_bound; discriminate).
  assert (Hpad : ((4 - n mod 4) mod 4 < 4)%nat)
    by (apply Nat.mod_upper_bound; discriminate).
  split; [ | split ].
  - rewrite length_append, length_equals_signs. fold n.
    rewrite Nat.Div0.add_mod.
    destruct (n mod 4)%nat as [| [| [| [| r]]]]; try reflexivity. lia.
  - rewrite length_append, length_equals_signs. fold n. lia.
  - intros Hzero. rewrite Hzero. cbn. apply append_empty_r.
Qed.

Lemma padded_payload_length_witness :
  pad_payload "eyJhIjoxfQ" = "eyJhIjoxfQ==" /\ pad_payload "eyJh" = "eyJh".
Proof.
  split; [ reflexivity | ].
  exact (proj2 (proj2 (padded_payload_length "eyJh")) eq_refl).
Defined.

Lemma split_dot_from_dotless (a cur : string) :
  dotless a -> split_dot_from cur a = [cur +:+ a].
Proof.
  unfold dotless. revert cur. induction a as [| ch a IH]; intros cur Ha.
  - cbn. rewrite append_empty_r. reflexivity.
  - cbn [list_ascii_of_string] in Ha. inversion Ha as [| ch' tl Hch Htl]; subst.
    cbn [split_dot_from]. apply Ascii.eqb_neq in Hch. rewrite Hch.
    rewrite IH by exact Htl. rewrite append_assoc. reflexivity.
Qed.

Lemma split_dot_from_part (a rest cur : string) :
  dotless a ->
  split_dot_from cur (a +:+ String "." rest) = (cur +:+ a) :: split_dot_from "" rest.
Proof.
  unfold dotless. revert cur. induction a as [| ch a IH]; intros cur Ha.
  - cbn. rewrite append_empty_r. reflexivity.
  - cbn [list_ascii_of_string] in Ha. inversion Ha as [| ch' tl Hch Htl]; subst.
    change (String ch a +:+ String "." rest) with (String ch (a +:+ String "." rest)).
    cbn [split_dot_from]. apply Ascii.eqb_neq in Hch. rewrite Hch.
    rewrite IH by exact Htl. rewrite append_assoc. reflexivity.
Qed.

(** [__get_user_name] never raises and falls back to ["tester"]: for a
    token that is not a string, and for a string without a dot. For a
    token of three parts it reads the second part only: the name is the
    ["preferred_username"] of the decoded payload, whatever the header and
    the signature are, and ["tester"] when the payload does not decode or
    has no such key. *)
Theorem user_name_from_second_part
    (decode : string -> exn + json) (token : json)
    (t header payload signature : string) :
  (not_a_string token -> __get_user_name decode token = JStr "tester") /\
  (dotless t -> __get_user_name decode (JStr t) = JStr "tester") /\
  (dotless header -> dotless payload ->
   __get_user_name decode
     (JStr (header +:+ String "." (payload +:+ String "." signature))) =
     match decode (pad_payload payload) with
     | inl _ => JStr "tester"
     | inr jwt_payload =>
         match subscript jwt_payload "preferred_username" with
         | inl _ => JStr "tester"
         | inr name => name
         end
     end).
Proof.
  split; [ | split ].
  - intros Hns. destruct token; try reflexivity. contradiction.
  - intros Ht. unfold __get_user_name, split_dot.
    rewrite (split_dot_from_dotless t "" Ht). reflexivity.
  - intros Hh Hp. unfold __get_user_name, split_dot.
    rewrite (split_dot_from_part header _ "" Hh).
    rewrite (split_dot_from_part payload _ "" Hp). reflexivity.
Qed.

Lemma user_name_from_second_part_witness :
  __get_user_name
    (fun s => if String.eqb s "cGF5" then inr (JObj [("preferred_username", JStr "93080048")])
              else inl (OtherError "ValueError" "Incorrect padding"))
    (JStr "aGVhZGVy.cGF5.c2lnbmF0dXJl") = JStr "93080048" /\
  __get_user_name (fun _ => inr JNull) (JStr "no dots here") = JStr "tester".
Proof.
  assert (Hh : dotless "aGVhZGVy") by (repeat constructor; discriminate).
  assert (Hp : dotless "cGF5") by (repeat constructor; discriminate).
  assert (Ht : dotless "no dots here") by (repeat constructor; discriminate).
  split.
  - exact (proj2 (proj2 (user_name_from_second_part _ JNull "" "aGVhZGVy" "cGF5"
                           "c2lnbmF0dXJl")) Hh Hp).
  - exact (proj1 (proj2 (user_name_from_second_part (fun _ => inr JNull) JNull
                           "no dots here" "" "" "")) Ht).
Defined.

(** ** A request from submission to ack *)

(** A subscribe batch with a valid, marker-free suffix goes out, the
    transport returns 0 and a fresh id, and the ack for that id arrives
    with at least one reason code: the trace gains the transport call and
    then one acknowledgment event that lists the valid suffixes of the
    batch, in submission order, each with its reason code; and the pending
    table is again what it was before the request. *)
Theorem subscribe_then_ack
    (w : World) (c : Category) (st : Connect) (l : list string) (mid : Z)
    (rc0 : ReasonCode) (rcl : list ReasonCode) (h : handler) :
  reachable st ->
  (1 <= length l <= 1024)%nat ->
  List.filter validate l <> [] ->
  Forall (fun s => has_marker s = false) (List.filter validate l) ->
  w_subscribe w (map (prefixed (prefix_of c)) (List.filter validate l)) = inr (0, mid) ->
  subscriptions st !! mid = None ->
  on_acknowledge_response st = Some h ->
  let st1 := snd (subscribe w c (subscription_request l) st) in
  let st2 := snd (__on_subscribe mid (rc0 :: rcl) st1) in
  trace st2 =
    trace st ++
    [Call (MqttSubscribe (map (prefixed (prefix_of c)) (List.filter validate l)));
     Ack h (SubscribeAckResponse (rc_packetType rc0) "SUBACK"
              (map suffix_result (py_zip (rc0 :: rcl) (List.filter validate l))))] /\
  subscriptions st2 = subscriptions st.
Proof.
  intros Hreach Hlen Hsome Hfree Hres Hfresh Hack st1 st2.
  set (topics := map (prefixed (prefix_of c)) (List.filter validate l)) in *.
  assert (Hst1 : st1 = with_subscriptions (<[mid := topics]> (subscriptions st))
                         (add_event (Call (MqttSubscribe topics)) st)).
  { unfold st1, subscribe, __subscribe, try_except, subscription_request.
    rewrite (subscribe_body_strings w (prefix_of c)
               [("subscriptionList", JArr (map JStr l))] l st eq_refl Hlen).
    fold topics. unfold submit_subscribe.
    destruct topics as [| t ts] eqn:Ht.
    - unfold topics in Ht. apply map_eq_nil in Ht. contradiction.
    - cbn [is_nil]. run. rewrite Hres. reflexivity. }
  assert (Hreach1 : reachable st1)
    by exact (reach_step _ _ Hreach (step_subscribe w c (subscription_request l) st)).
  assert (Hin : subscriptions st1 !! mid = Some topics).
  { rewrite Hst1. cbn [with_subscriptions subscriptions]. apply lookup_insert_eq. }
  unfold st2.
  rewrite (on_subscribe_present st1 mid topics _ Hin
             (reachable_pending_wf st1 Hreach1 mid topics Hin)).
  unfold acked. cbn [snd]. rewrite Hst1.
  cbn [with_subscriptions add_event on_acknowledge_response trace subscriptions].
  rewrite Hack. cbn [trace subscriptions].
  unfold topics. rewrite (ack_entries_marker_free c _ Hfree).
  cbn [trace subscriptions add_event with_subscriptions].
  split.
  - rewrite <- app_assoc. reflexivity.
  - rewrite delete_insert_eq. apply delete_id. exact Hfresh.
Qed.

Lemma subscribe_then_ack_witness :
  let st := set_on_acknowledge_response (Some 5%nat) initial in
  let st1 := snd (subscribe calm_world Feed
                    (subscription_request ["nseeq/2285"; "NSE"]) st) in
  let st2 := snd (__on_subscribe 7 [mkReasonCode 0 9 "Granted QoS 0"] st1) in
  trace st2 =
    [Call (MqttSubscribe [("prod/marketfeed/mw/v1/nseeq/2285", 0)]);
     Ack 5%nat (SubscribeAckResponse 9 "SUBACK"
                  [mkSubscribeResult 0 "Granted" "nseeq/2285"])] /\
  subscriptions st2 = ∅.
Proof.
  intros st.
  assert (Hreach : reachable st)
    by exact (reach_step _ _ reach_initial (step_set_ack (Some 5%nat) initial)).
  assert (Hlen : (1 <= length ["nseeq/2285"; "NSE"] <= 1024)%nat)
    by (cbn [length]; lia).
  assert (Hsome : List.filter validate ["nseeq/2285"; "NSE"] <> []) by discriminate.
  assert (Hfree : Forall (fun s => has_marker s = false)
                    (List.filter validate ["nseeq/2285"; "NSE"]))
    by (repeat constructor).
  exact (subscribe_then_ack calm_world Feed st ["nseeq/2285"; "NSE"] 7
           (mkReasonCode 0 9 "Granted QoS 0") [] 5%nat
           Hreach Hlen Hsome Hfree eq_refl (lookup_empty 7) eq_refl).
Defined.

(** ** The topic of an inbound message *)

(** The callback on a message whose topic decodes is [__on_message] on
    the decoded string. *)
Lemma on_message_of_decoded (s : string) (payload : list Byte.byte)
    (st : Connect) :
  __on_message_of (inr s) payload st = __on_message s payload st.
Proof. reflexivity. Qed.

(** On a message whose topic does not decode, the callback does nothing
    but report the exception of the decoding. *)
Lemma on_message_of_undecodable (ex : exn) (payload : list Byte.byte)
    (st : Connect) :
  __on_message_of (inl ex) payload st = (inr tt, reported (str_of_exn ex) st).
Proof.
  unfold __on_message_of, on_message_of_body, try_except, bind, lift.
  apply reported_run.
Qed.

Lemma count_reported (msg : string) (st : Connect) :
  count (reported msg st) = count st.
Proof. unfold reported. destruct (on_error st); reflexivity. Qed.

Lemma acked_run (a : ack) (st : Connect) :
  try_except (notify_ack a) (fun ex => notify_error (-1) (str_of_exn ex)) st =
    (inr tt, acked a st).
Proof.
  unfold acked. run. destruct (on_acknowledge_response st); reflexivity.
Qed.

(** ** Each operation and the registry, the pending table, the counter *)

(** The handler registry, operation by operation: the setter of a
    category writes the one key it hands to [__set_callback] and keeps
    every other key; the setters of the acknowledgment and error
    callbacks, connect, subscribe, unsubscribe, disconnect and each of the
    five transport callbacks leave the registry exactly as it was, for
    every argument and whatever the collaborators answer. *)
Theorem registry_changed_by_registration_only
    (w : World) (req : request) (c : Category) (func : option handler)
    (tp : exn + string) (payload : list Byte.byte) (rc : ReasonCode)
    (mid : Z) (rcl : list ReasonCode) (pt : Z) (st : Connect) :
  topic_handler (register c func st) =
    <[setter_topic c := func]> (topic_handler st) /\
  topic_handler (set_on_acknowledge_response func st) = topic_handler st /\
  topic_handler (set_on_error func st) = topic_handler st /\
  topic_handler (snd (connect_host w req st)) = topic_handler st /\
  topic_handler (snd (subscribe w c req st)) = topic_handler st /\
  topic_handler (snd (unsubscribe w c req st)) = topic_handler st /\
  topic_handler (snd (disconnect_host w st)) = topic_handler st /\
  topic_handler (snd (__on_message_of tp payload st)) = topic_handler st /\
  topic_handler (snd (__on_connect rc st)) = topic_handler st /\
  topic_handler (snd (__on_disconnect rc st)) = topic_handler st /\
  topic_handler (snd (__on_subscribe mid rcl st)) = topic_handler st /\
  topic_handler (snd (__on_unsubscribe mid rcl pt st)) = topic_handler st.
Proof.
  unfold subscribe, unsubscribe.
  split; [ reflexivity | ].
  split; [ reflexivity | ].
  split; [ reflexivity | ].
  split; [ apply (keeps_connect_host topic_handler); reflexivity | ].
  split; [ apply (keeps_subscribe topic_handler); reflexivity | ].
  split; [ apply (keeps_unsubscribe topic_handler); reflexivity | ].
  split; [ apply (keeps_disconnect_host topic_handler); reflexivity | ].
  split; [ apply (keeps_on_message_of topic_handler); reflexivity | ].
  split; [ apply (keeps_on_connect topic_handler); reflexivity | ].
  split; [ apply (keeps_on_disconnect topic_handler); reflexivity | ].
  split; [ apply (keeps_on_subscribe topic_handler); reflexivity | ].
  apply (keeps_on_unsubscribe topic_handler); reflexivity.
Qed.

(** The message counter, operation by operation: the message callback
    adds exactly one when the topic of the message decodes, whether the
    message is then delivered, dropped or ends in an exception; when the
    topic does not decode, the callback reports the exception and the
    message is not counted; the setters, connect, subscribe, unsubscribe,
    disconnect and the four other transport callbacks leave the counter
    as it was. *)
Theorem every_message_counted
    (w : World) (req : request) (c : Category) (func : option handler)
    (s : string) (ex : exn) (payload : list Byte.byte) (rc : ReasonCode)
    (mid : Z) (rcl : list ReasonCode) (pt : Z) (st : Connect) :
  count (snd (__on_message_of (inr s) payload st)) = count st + 1 /\
  __on_message_of (inl ex) payload st = (inr tt, reported (str_of_exn ex) st) /\
  count (snd (__on_message_of (inl ex) payload st)) = count st /\
  count (register c func st) = count st /\
  count (set_on_acknowledge_response func st) = count st /\
  count (set_on_error func st) = count st /\
  count (snd (connect_host w req st)) = count st /\
  count (snd (subscribe w c req st)) = count st /\
  count (snd (unsubscribe w c req st)) = count st /\
  count (snd (disconnect_host w st)) = count st /\
  count (snd (__on_connect rc st)) = count st /\
  count (snd (__on_disconnect rc st)) = count st /\
  count (snd (__on_subscribe mid rcl st)) = count st /\
  count (snd (__on_unsubscribe mid rcl pt st)) = count st.
Proof.
  unfold subscribe, unsubscribe.
  split.
  { rewrite on_message_of_decoded, on_message_run. cbn [snd].
    destruct (topic_handler st !! (hd "" (re_split s) +:+ "v1/")) as [[h |] |];
      try reflexivity.
    destruct (nth_error (re_split s) 1); [ reflexivity | ].
    rewrite count_reported. reflexivity. }
  split; [ apply on_message_of_undecodable | ].
  split; [ rewrite on_message_of_undecodable; apply count_reported | ].
  split; [ reflexivity | ].
  split; [ reflexivity | ].
  split; [ reflexivity | ].
  split; [ apply (keeps_connect_host count); reflexivity | ].
  split; [ apply (keeps_subscribe count); reflexivity | ].
  split; [ apply (keeps_unsubscribe count); reflexivity | ].
  split; [ apply (keeps_disconnect_host count); reflexivity | ].
  split; [ apply (keeps_on_connect count); reflexivity | ].
  split; [ apply (keeps_on_disconnect count); reflexivity | ].
  split; [ apply (keeps_on_subscribe count); reflexivity | ].
  apply (keeps_on_unsubscribe count); reflexivity.
Qed.

(** The pending table, operation by operation, in a state a session can
    reach: subscribe either leaves it as it was or adds, under the id the
    transport returned with status 0, the non-empty list of well-formed
    topics it submitted; the subscribe acknowledgment deletes the id it
    names and nothing else; the setters, connect, unsubscribe, disconnect
    and the four other transport callbacks leave it as it was. *)
Theorem pending_changed_by_subscribe_and_ack
    (w : World) (req : request) (c : Category) (func : option handler)
    (tp : exn + string) (payload : list Byte.byte) (rc : ReasonCode)
    (mid : Z) (rcl : list ReasonCode) (pt : Z) (st : Connect) :
  reachable st ->
  (subscriptions (snd (subscribe w c req st)) = subscriptions st \/
   exists id topics,
     topics <> [] /\ Forall wf_topic topics /\
     w_subscribe w topics = inr (0, id) /\
     subscriptions (snd (subscribe w c req st)) =
       <[id := topics]> (subscriptions st)) /\
  subscriptions (snd (__on_subscribe mid rcl st)) =
    delete mid (subscriptions st) /\
  subscriptions (register c func st) = subscriptions st /\
  subscriptions (set_on_acknowledge_response func st) = subscriptions st /\
  subscriptions (set_on_error func st) = subscriptions st /\
  subscriptions (snd (connect_host w req st)) = subscriptions st /\
  subscriptions (snd (unsubscribe w c req st)) = subscriptions st /\
  subscriptions (snd (disconnect_host w st)) = subscriptions st /\
  subscriptions (snd (__on_message_of tp payload st)) = subscriptions st /\
  subscriptions (snd (__on_connect rc st)) = subscriptions st /\
  subscriptions (snd (__on_disconnect rc st)) = subscriptions st /\
  subscriptions (snd (__on_unsubscribe mid rcl pt st)) = subscriptions st.
Proof.
  intros Hreach. split.
  { destruct (subscribe_cases w c req st)
      as [[r [s1 [Hout [_ [_ Hsubs]]]]]
         | [topics [r [s1 [Hne [Hwf [Hout [_ Hres]]]]]]]];
      rewrite Hout; cbn [snd].
    - left. exact Hsubs.
    - destruct Hres as [[ex [_ [_ Hsubs]]] | [code [id [Hw [_ Hsubs]]]]].
      + left. exact Hsubs.
      + destruct (code =? 0) eqn:Hcode.
        * right. exists id, topics. apply Z.eqb_eq in Hcode. subst code.
          split; [ exact Hne | ]. split; [ exact Hwf | ].
          split; [ exact Hw | exact Hsubs ].
        * left. exact Hsubs. }
  split; [ apply on_subscribe_pending, reachable_pending_wf, Hreach | ].
  unfold unsubscribe.
  split; [ reflexivity | ].
  split; [ reflexivity | ].
  split; [ reflexivity | ].
  split; [ apply (keeps_connect_host subscriptions); reflexivity | ].
  split; [ apply (keeps_unsubscribe subscriptions); reflexivity | ].
  split; [ apply (keeps_disconnect_host subscriptions); reflexivity | ].
  split; [ apply (keeps_on_message_of subscriptions); reflexivity | ].
  split; [ apply (keeps_on_connect subscriptions); reflexivity | ].
  split; [ apply (keeps_on_disconnect subscriptions); reflexivity | ].
  apply (keeps_on_unsubscribe subscriptions); reflexivity.
Qed.

Lemma pending_changed_by_subscribe_and_ack_witness :
  let st := snd (subscribe calm_world Feed
                   (subscription_request ["nseeq/2285"]) initial) in
  subscriptions st !! 7 = Some [("prod/marketfeed/mw/v1/nseeq/2285", 0)] /\
  subscriptions (snd (__on_subscribe 7 [mkReasonCode 0 9 "Granted QoS 0"] st)) =
    delete 7 (subscriptions st) /\
  subscriptions (snd (disconnect_host calm_world st)) = subscriptions st.
Proof.
  intros st.
  assert (Hreach : reachable st)
    by exact (reach_step _ _ reach_initial
                (step_subscribe calm_world Feed
                   (subscription_request ["nseeq/2285"]) initial)).
  split; [ vm_compute; reflexivity | ].
  pose proof (pending_changed_by_subscribe_and_ack calm_world ReqEmpty Feed None
                (inr "prod/marketfeed/mw/v1/nseeq/2285") [] (mkReasonCode 0 9 "ok")
                7 [mkReasonCode 0 9 "Granted QoS 0"] 9 st Hreach) as H.
  split; [ exact (proj1 (proj2 H)) | ].
  exact (proj1 (proj2 (proj2 (proj2 (proj2 (proj2 (proj2 (proj2 H)))))))).
Defined.

(** ** The transport callbacks, outcome by outcome *)

(** None of the five callbacks the transport invokes lets an exception
    out, in any state and for any argument, and each failure inside one
    is reported to the error callback with code -1 and the text of the
    exception, if an error callback is registered. The message callback
    fails when the topic does not decode (nothing else happens) and when
    a handler is found but the topic has no second piece (the message is
    counted); otherwise it counts the message and hands it to the handler
    found, if any. The connect, disconnect and unsubscribe callbacks
    cannot fail: each forwards its one acknowledgment. The subscribe
    callback, in a state a session can reach, fails when the id is not
    pending (with the key as text when there is no reason code, with the
    index error of the default entry otherwise) and when there is no
    reason code to take the packet type from (after the entry is
    deleted); otherwise it deletes the entry and forwards the results. *)
Theorem transport_callbacks_return
    (st : Connect) (tp : exn + string) (payload : list Byte.byte)
    (rc : ReasonCode) (mid : Z) (rcl : list ReasonCode) (pt : Z) :
  (fst (__on_message_of tp payload st) = inr tt /\
   fst (__on_connect rc st) = inr tt /\
   fst (__on_disconnect rc st) = inr tt /\
   fst (__on_subscribe mid rcl st) = inr tt /\
   fst (__on_unsubscribe mid rcl pt st) = inr tt) /\
  snd (__on_message_of tp payload st) =
    match tp with
    | inl ex => reported (str_of_exn ex) st
    | inr s =>
        match topic_handler st !! (hd "" (re_split s) +:+ "v1/") with
        | Some (Some h) =>
            match nth_error (re_split s) 1 with
            | Some suffix =>
                add_event (Data h payload suffix) (with_count (count st + 1) st)
            | None =>
                reported "list index out of range" (with_count (count st + 1) st)
            end
        | _ => with_count (count st + 1) st
        end
    end /\
  snd (__on_connect rc st) =
    acked (CommonResponse (rc_value rc) (rc_packetType rc) "CONNACK" (rc_str rc)) st /\
  snd (__on_disconnect rc st) =
    acked (CommonResponse (rc_value rc) (rc_packetType rc) "DISCONNECT" (rc_str rc)) st /\
  snd (__on_unsubscribe mid rcl pt st) =
    acked (UnsubscribeAckResponse pt "UNSUBACK" 0 "Unsubscribed Successfully") st /\
  (reachable st ->
   snd (__on_subscribe mid rcl st) =
     match subscriptions st !! mid, rcl with
     | Some l, rc0 :: _ =>
         acked (SubscribeAckResponse (rc_packetType rc0) "SUBACK"
                  (map ack_entry (py_zip rcl l)))
           (with_subscriptions (delete mid (subscriptions st)) st)
     | Some l, [] =>
         reported "list index out of range"
           (with_subscriptions (delete mid (subscriptions st)) st)
     | None, [] => reported (pretty mid) st
     | None, _ :: _ => reported "list index out of range" st
     end).
Proof.
  assert (Hguard : forall (body : M unit) s,
            fst (try_except body (fun ex => notify_error (-1) (str_of_exn ex)) s)
              = inr tt).
  { intros body s. unfold try_except.
    destruct (body s) as [[ex | []] s1]; [ | reflexivity ].
    rewrite reported_run. reflexivity. }
  split; [ repeat split; apply Hguard | ].
  split.
  { destruct tp as [ex | s].
    - rewrite on_message_of_undecodable. reflexivity.
    - rewrite on_message_of_decoded, on_message_run. reflexivity. }
  unfold __on_connect, __on_disconnect, __on_unsubscribe.
  rewrite !acked_run. cbn [snd].
  split; [ reflexivity | ]. split; [ reflexivity | ]. split; [ reflexivity | ].
  intros Hreach.
  destruct (subscriptions st !! mid) as [l |] eqn:Hmid.
  - rewrite (on_subscribe_present st mid l rcl Hmid
               (reachable_pending_wf st Hreach mid l Hmid)).
    destruct rcl; reflexivity.
  - rewrite (on_subscribe_absent st mid rcl Hmid).
    destruct rcl; reflexivity.
Qed.

Lemma transport_callbacks_return_witness :
  snd (__on_subscribe 8 [mkReasonCode 0 9 "Granted QoS 0"]
         (set_on_error (Some 2%nat) initial)) =
    add_event (Error 2%nat (-1) "list index out of range")
      (set_on_error (Some 2%nat) initial).
Proof.
  exact (proj2 (proj2 (proj2 (proj2 (proj2
           (transport_callbacks_return (set_on_error (Some 2%nat) initial)
              (inl (OtherError "UnicodeDecodeError" "invalid start byte")) []
              (mkReasonCode 0 9 "ok") 8 [mkReasonCode 0 9 "Granted QoS 0"] 9)))))
           (reach_step _ _ reach_initial (step_set_error (Some 2%nat) initial))).
Defined.

(** ** The assignments of the example program *)

Lemma example_registry (c : Category) :
  topic_handler (Main.registrations initial) !! prefix_of c =
    option_map Some (Main.receiver c).
Proof.
  assert (Hplain : forall name func st,
            topic_handler (Main.plain_attribute name func st) = topic_handler st)
    by reflexivity.
  unfold Main.registrations. cbv zeta.
  rewrite !Hplain, !registry_after_register, Hplain, Hplain, !registry_after_register.
  change (topic_handler (set_on_error (Some Main.error_handler)
            (set_on_acknowledge_response (Some Main.acknowledgement_handler) initial)))
    with (∅ : gmap string (option handler)).
  rewrite lookup_empty.
  destruct c; vm_compute; reflexivity.
Qed.

(** After the twelve assignments at the head of [main()], the
    acknowledgment and error callbacks are the example's, and the handler
    [__on_message] looks up for a topic of a category, with the topic
    piece it would pass as second argument, is: the example's handler for
    feed, open interest, LPP, market status, upper circuit, lower circuit
    and order updates; none for the index category, which the example
    does not assign, and none for 52-week high, 52-week low and trade
    updates, whose assignments use names that are no properties of the
    class and so leave plain attributes only. A message of a category
    without handler is counted and invokes no callback. What a handler
    does once called is not part of the statement. *)
Theorem example_wiring (c : Category) (s : string) (payload : list Byte.byte) :
  on_acknowledge_response (Main.registrations initial) =
    Some Main.acknowledgement_handler /\
  on_error (Main.registrations initial) = Some Main.error_handler /\
  topic_handler (Main.registrations initial)
    !! (hd "" (re_split (prefix_of c +:+ s)) +:+ "v1/") =
    option_map Some (Main.receiver c) /\
  nth_error (re_split (prefix_of c +:+ s)) 1 = Some (first_piece s) /\
  attrs (Main.registrations initial) !! "on_high_52week_data_received" =
    Some (Some Main.high_52week_handler) /\
  attrs (Main.registrations initial) !! "on_low_52week_data_received" =
    Some (Some Main.low_52week_handler) /\
  attrs (Main.registrations initial) !! "on_trade_update_data_received" =
    Some (Some Main.trade_update_handler) /\
  (Main.receiver c = None ->
   __on_message_of (inr (prefix_of c +:+ s)) payload (Main.registrations initial) =
     (inr tt, with_count 1 (Main.registrations initial))).
Proof.
  destruct (second_piece_of_topic c s) as [Hkey Hsuffix].
  split; [ reflexivity | ]. split; [ reflexivity | ].
  split; [ rewrite Hkey; apply example_registry | ].
  split; [ exact Hsuffix | ].
  split; [ vm_compute; reflexivity | ].
  split; [ vm_compute; reflexivity | ].
  split; [ vm_compute; reflexivity | ].
  intros Hnone.
  rewrite on_message_of_decoded, on_message_dispatch, example_registry, Hnone.
  reflexivity.
Qed.

Lemma example_wiring_witness :
  __on_message_of (inr "prod/updates/trade/v1/TESTUSER") []
    (Main.registrations initial) =
    (inr tt, with_count 1 (Main.registrations initial)).
Proof.
  exact (proj2 (proj2 (proj2 (proj2 (proj2 (proj2 (proj2
           (example_wiring TradeUpdates "TESTUSER" []))))))) eq_refl).
Defined.
